(** * Lab_MarkovChain: the patient-level Markov simulation and its cohort outcomes

    A shallow embedding of [MarkovModelClasses.py]: the classes [Patient],
    [PatientStateMonitor], [Cohort] and [CohortOutcomes], followed by the
    properties of the specification that concern them.

    Conventions of the embedding.
    - A Python object is a record; a method takes the object ([self]) and
      returns the object after the call.  A method that can raise returns,
      next to the object, the exception that left it ([None]: it returned
      normally), so that the state at the moment of the exception stays
      observable, as it does in Python.
    - Python integers are [Z].
    - Times are Python floats of the form [k + 0.5] with [k] an integer
      time step.  They are embedded in [Q]: binary64 represents [k + 0.5]
      and compares such values exactly for every [|k| < 2^52], far beyond
      any horizon a simulation can run through.  Sums and means of times
      are taken in [Q] as well, so rounding inside [sum] is not modelled.
    - [InputData.HealthState], [SimPy.RandomVariantGenerators] and
      [SimPy.SamplePathClasses] are imported by the module and are not part
      of it: the first two are interfaces (type classes) of the embedding,
      the third is represented by the arguments of its constructor call. *)

From Stdlib Require Import ZArith QArith Lia Lqa String Sorted.
From stdpp Require Import base decidable option list numbers.
From Equations Require Import Equations.

Local Open Scope Z_scope.

(** ** Python runtime: exceptions, indexing, [range], [sum]/[len] *)

Inductive exception : Set :=
| IndexError
| ValueError
| TypeError
| ZeroDivisionError.

(** The float literal [0.5]. *)
Definition half : Q := 1 # 2.

#[global] Instance Q_eq_dec : EqDecision Q.
Proof. solve_decision. Defined.

(** [time_step + 0.5] with [time_step] an [int]. *)
Definition half_cycle (time_step : Z) : Q := (inject_Z time_step + half)%Q.

(** [l[i]] on a Python list: a negative index counts from the end, an index
    outside [-len(l) .. len(l) - 1] raises [IndexError]. *)
Definition getitem {A : Type} (l : list A) (i : Z) : exception + A :=
  let n := Z.of_nat (length l) in
  let j := if decide (i < 0) then i + n else i in
  if decide (0 <= j < n) then
    match l !! Z.to_nat j with
    | Some x => inr x
    | None => inl IndexError
    end
  else inl IndexError.

(** [range(n)]: empty when [n <= 0]. *)
Definition range (n : Z) : list Z := seqZ 0 n.

(** [sum(l)] on a list of floats. *)
Definition sum (l : list Q) : Q := fold_left Qplus l 0%Q.

(** [sum(l) / len(l)] on a list of floats. *)
Definition mean (l : list Q) : exception + Q :=
  let s := sum l in
  match l with
  | [] => inl ZeroDivisionError
  | _ :: _ => inr (s / inject_Z (Z.of_nat (length l)))%Q
  end.

(** [sum(l) / len(l)] on a list whose items are floats or [None]: adding
    [None] to a number raises [TypeError], and [sum] is evaluated before
    [len]. *)
Definition mean_of_optional (l : list (option Q)) : exception + Q :=
  match mapM (M := option) (fun x : option Q => x) l with
  | None => inl TypeError
  | Some floats => mean floats
  end.

(** ** The imported interfaces *)

(** [InputData.HealthState]: an [Enum].  The module names three of its
    members, reads the [value] of a member to index the transition matrix,
    and builds a member from an integer ([HealthState(i)], which raises
    [ValueError] when no member has that value: [None] here). *)
Class HealthStateEnum (HealthState : Type) : Type := {
  HealthState_eq_dec :: EqDecision HealthState;
  CD4_200to500 : HealthState;
  AIDS : HealthState;
  HIV_DEATH : HealthState;
  value : HealthState -> Z;
  HealthState_of_value : Z -> option HealthState;
}.

(** [SimPy.RandomVariantGenerators]: [RNG(seed=...)] builds a generator,
    [Empirical(probabilities=...)] an empirical distribution (it may reject
    its argument) and [dist.sample(rng)] draws an index, advancing the
    generator (it may raise as well; the generator it leaves is returned in
    either case).  [rng] and [empirical] are the types of the generators
    and of the distributions. *)
Class RandomVariantGenerators (rng empirical : Type) : Type := {
  RNG : Z -> rng;
  Empirical : list Q -> exception + empirical;
  sample : empirical -> rng -> (exception + Z) * rng;
}.

(** [SimPy.SamplePathClasses.PrevalencePathBatchUpdate(name, initial_size,
    times_of_changes, increments)]: the sample path is kept as the
    arguments the module passes to the constructor.  What the class does
    with them (the order in which it replays the changes) is outside the
    module and is not modelled. *)
Record PrevalencePathBatchUpdate : Type := {
  name : string;
  initial_size : nat;
  times_of_changes : list Q;
  increments : list Z;
}.

(** ** The classes of [MarkovModelClasses.py] *)

Section MarkovModelClasses.
Context {HealthState : Type} `{!HealthStateEnum HealthState}.
Context {rng empirical : Type} `{!RandomVariantGenerators rng empirical}.

(** *** class PatientStateMonitor *)

Record PatientStateMonitor : Type := {
  currentState : HealthState;
  survivalTime : option Q;
  timeToAIDS : option Q;
  ifDevelopedAIDS : bool;
}.

(** [PatientStateMonitor.__init__] *)
Definition PatientStateMonitor_init : PatientStateMonitor :=
  {| currentState := CD4_200to500;
     survivalTime := None;
     timeToAIDS := None;
     ifDevelopedAIDS := false |}.

Definition set_survivalTime (t : option Q) (self : PatientStateMonitor) :=
  {| currentState := currentState self;
     survivalTime := t;
     timeToAIDS := timeToAIDS self;
     ifDevelopedAIDS := ifDevelopedAIDS self |}.

Definition set_timeToAIDS (t : option Q) (self : PatientStateMonitor) :=
  {| currentState := currentState self;
     survivalTime := survivalTime self;
     timeToAIDS := t;
     ifDevelopedAIDS := ifDevelopedAIDS self |}.

Definition set_ifDevelopedAIDS (b : bool) (self : PatientStateMonitor) :=
  {| currentState := currentState self;
     survivalTime := survivalTime self;
     timeToAIDS := timeToAIDS self;
     ifDevelopedAIDS := b |}.

Definition set_currentState (s : HealthState) (self : PatientStateMonitor) :=
  {| currentState := s;
     survivalTime := survivalTime self;
     timeToAIDS := timeToAIDS self;
     ifDevelopedAIDS := ifDevelopedAIDS self |}.

(** [PatientStateMonitor.update] *)
Definition update (time_step : Z) (new_state : HealthState)
    (self : PatientStateMonitor) : PatientStateMonitor :=
  (* if the patient has died, do nothing *)
  if decide (currentState self = HIV_DEATH) then self
  else
    (* update survival time *)
    let self1 :=
      if decide (new_state = HIV_DEATH)
      then set_survivalTime (Some (half_cycle time_step)) self
      else self in
    (* update time until AIDS *)
    let self2 :=
      if decide (currentState self1 <> AIDS /\ new_state = AIDS)
      then set_timeToAIDS (Some (half_cycle time_step))
             (set_ifDevelopedAIDS true self1)
      else self1 in
    (* update current health state *)
    set_currentState new_state self2.

(** [PatientStateMonitor.get_if_alive] *)
Definition get_if_alive (self : PatientStateMonitor) : bool :=
  if decide (currentState self <> HIV_DEATH) then true else false.

(** *** class Patient *)

Record Patient : Type := {
  Patient_id : Z;
  Patient_rng : rng;
  tranProbMatrix : list (list Q);
  stateMonitor : PatientStateMonitor;
}.

(** [Patient.__init__] *)
Definition Patient_init (id : Z) (transition_matrix : list (list Q)) : Patient :=
  {| Patient_id := id;
     Patient_rng := RNG id;
     tranProbMatrix := transition_matrix;
     stateMonitor := PatientStateMonitor_init |}.

Definition set_rng (r : rng) (self : Patient) : Patient :=
  {| Patient_id := Patient_id self;
     Patient_rng := r;
     tranProbMatrix := tranProbMatrix self;
     stateMonitor := stateMonitor self |}.

Definition set_stateMonitor (m : PatientStateMonitor) (self : Patient) : Patient :=
  {| Patient_id := Patient_id self;
     Patient_rng := Patient_rng self;
     tranProbMatrix := tranProbMatrix self;
     stateMonitor := m |}.

(** Lines 26-33 of the loop body of [Patient.simulate] and the argument
    [HealthState(new_state_index)] of the call on line 36: the new state,
    or the exception raised on the way; the generator is advanced by
    [sample]. *)
Definition draw_new_state (self : Patient) : Patient * (exception + HealthState) :=
  (* find the transition probabilities to future states *)
  match getitem (tranProbMatrix self) (value (currentState (stateMonitor self))) with
  | inl e => (self, inl e)
  | inr trans_probs =>
    (* create an empirical distribution *)
    match Empirical trans_probs with
    | inl e => (self, inl e)
    | inr empirical_dist =>
      (* sample from the empirical distribution to get a new state *)
      let '(drawn, rng') := sample empirical_dist (Patient_rng self) in
      let self := set_rng rng' self in
      match drawn with
      | inl e => (self, inl e)
      | inr new_state_index =>
        match HealthState_of_value new_state_index with
        | None => (self, inl ValueError)
        | Some new_state => (self, inr new_state)
        end
      end
    end
  end.

(** [self.stateMonitor.update(time_step=k, new_state=...)] on line 36. *)
Definition update_patient (k : Z) (new_state : HealthState) (self : Patient) : Patient :=
  set_stateMonitor (update k new_state (stateMonitor self)) self.

(** The loop of [Patient.simulate], entered with the counter at [k]:
    [while self.stateMonitor.get_if_alive() and k < n_time_steps]. *)
Equations? simulate_while (self : Patient) (n_time_steps k : Z)
    : Patient * option exception by wf (Z.to_nat (n_time_steps - k)) lt :=
  simulate_while self n_time_steps k
    with decide (get_if_alive (stateMonitor self) = true /\ k < n_time_steps) := {
    | left _ with draw_new_state self := {
      | (self', inl e) := (self', Some e);
      | (self', inr new_state) :=
          simulate_while (update_patient k new_state self') n_time_steps (k + 1) };
    | right _ := (self, None) }.
Proof. lia. Qed.

(** [Patient.simulate] *)
Definition Patient_simulate (self : Patient) (n_time_steps : Z)
    : Patient * option exception :=
  simulate_while self n_time_steps 0.

(** The calls [update(time_step, new_state)] that the loop makes, in
    order: the same loop, collecting the arguments of line 36. *)
Equations? update_calls_from (self : Patient) (n_time_steps k : Z)
    : list (Z * HealthState) by wf (Z.to_nat (n_time_steps - k)) lt :=
  update_calls_from self n_time_steps k
    with decide (get_if_alive (stateMonitor self) = true /\ k < n_time_steps) := {
    | left _ with draw_new_state self := {
      | (self', inl e) := [];
      | (self', inr new_state) :=
          (k, new_state)
            :: update_calls_from (update_patient k new_state self') n_time_steps (k + 1) };
    | right _ := [] }.
Proof. lia. Qed.

Definition update_calls (self : Patient) (n_time_steps : Z) : list (Z * HealthState) :=
  update_calls_from self n_time_steps 0.

(** A sequence of [update] calls applied to a monitor. *)
Definition apply_updates (calls : list (Z * HealthState))
    (self : PatientStateMonitor) : PatientStateMonitor :=
  fold_left (fun m call => update call.1 call.2 m) calls self.

(** Whether the call [update(time_step, new_state)] executes the
    assignment [self.timeToAIDS = ...] of line 69: the call is not the
    early return of line 60 and the test of line 67 holds. *)
Definition assigns_timeToAIDS (new_state : HealthState)
    (self : PatientStateMonitor) : bool :=
  bool_decide (currentState self <> HIV_DEATH
               /\ currentState self <> AIDS /\ new_state = AIDS).

(** *** class CohortOutcomes *)

Record CohortOutcomes : Type := {
  survivalTimes : list Q;
  timesToAIDS : list (option Q);
  meanSurvivalTime : option Q;
  meanTimeToAIDS : option Q;
  nLivingPatients : option PrevalencePathBatchUpdate;
}.

(** [CohortOutcomes.__init__] *)
Definition CohortOutcomes_init : CohortOutcomes :=
  {| survivalTimes := [];
     timesToAIDS := [];
     meanSurvivalTime := None;
     meanTimeToAIDS := None;
     nLivingPatients := None |}.

(** The body of the [for] loop of [extract_outcomes] (lines 128-131). *)
Definition record_patient (self : CohortOutcomes) (patient : Patient) : CohortOutcomes :=
  let survivalTimes1 :=
    match survivalTime (stateMonitor patient) with
    | Some t => survivalTimes self ++ [t]
    | None => survivalTimes self
    end in
  let timesToAIDS1 :=
    if ifDevelopedAIDS (stateMonitor patient)
    then timesToAIDS self ++ [timeToAIDS (stateMonitor patient)]
    else timesToAIDS self in
  {| survivalTimes := survivalTimes1;
     timesToAIDS := timesToAIDS1;
     meanSurvivalTime := meanSurvivalTime self;
     meanTimeToAIDS := meanTimeToAIDS self;
     nLivingPatients := nLivingPatients self |}.

Definition set_meanSurvivalTime (m : Q) (self : CohortOutcomes) : CohortOutcomes :=
  {| survivalTimes := survivalTimes self;
     timesToAIDS := timesToAIDS self;
     meanSurvivalTime := Some m;
     meanTimeToAIDS := meanTimeToAIDS self;
     nLivingPatients := nLivingPatients self |}.

Definition set_meanTimeToAIDS (m : Q) (self : CohortOutcomes) : CohortOutcomes :=
  {| survivalTimes := survivalTimes self;
     timesToAIDS := timesToAIDS self;
     meanSurvivalTime := meanSurvivalTime self;
     meanTimeToAIDS := Some m;
     nLivingPatients := nLivingPatients self |}.

Definition set_nLivingPatients (path : PrevalencePathBatchUpdate)
    (self : CohortOutcomes) : CohortOutcomes :=
  {| survivalTimes := survivalTimes self;
     timesToAIDS := timesToAIDS self;
     meanSurvivalTime := meanSurvivalTime self;
     meanTimeToAIDS := meanTimeToAIDS self;
     nLivingPatients := Some path |}.

(** [CohortOutcomes.extract_outcomes] *)
Definition extract_outcomes (self : CohortOutcomes) (simulated_patients : list Patient)
    : CohortOutcomes * option exception :=
  (* record survival time and time until AIDS *)
  let self := fold_left record_patient simulated_patients self in
  (* calculate mean survival time *)
  match mean (survivalTimes self) with
  | inl e => (self, Some e)
  | inr m =>
    let self := set_meanSurvivalTime m self in
    (* calculate mean time to AIDS *)
    match mean_of_optional (timesToAIDS self) with
    | inl e => (self, Some e)
    | inr m' =>
      let self := set_meanTimeToAIDS m' self in
      (* survival curve *)
      (set_nLivingPatients
         {| name := "# of living patients";
            initial_size := length simulated_patients;
            times_of_changes := survivalTimes self;
            increments := replicate (length (survivalTimes self)) (-1) |}
         self, None)
    end
  end.

(** *** class Cohort *)

Record Cohort : Type := {
  Cohort_id : Z;
  patients : list Patient;
  cohortOutcomes : CohortOutcomes;
}.

(** [Cohort.__init__] *)
Definition Cohort_init (id pop_size : Z) (transition_matrix : list (list Q)) : Cohort :=
  {| Cohort_id := id;
     (* populate the cohort *)
     patients :=
       fold_left
         (fun patients i =>
            let patient := Patient_init (id * pop_size + i) transition_matrix in
            patients ++ [patient])
         (range pop_size) [];
     cohortOutcomes := CohortOutcomes_init |}.

(** The [for] loop of [Cohort.simulate]: the patients are simulated in
    list order; an exception leaves the remaining patients untouched. *)
Fixpoint simulate_patients (patients : list Patient) (n_time_steps : Z)
    : list Patient * option exception :=
  match patients with
  | [] => ([], None)
  | patient :: rest =>
    match Patient_simulate patient n_time_steps with
    | (patient', Some e) => (patient' :: rest, Some e)
    | (patient', None) =>
        let '(rest', e) := simulate_patients rest n_time_steps in
        (patient' :: rest', e)
    end
  end.

(** [Cohort.simulate] *)
Definition Cohort_simulate (self : Cohort) (n_time_steps : Z)
    : Cohort * option exception :=
  (* simulate all patients *)
  match simulate_patients (patients self) n_time_steps with
  | (patients', Some e) =>
      ({| Cohort_id := Cohort_id self;
          patients := patients';
          cohortOutcomes := cohortOutcomes self |}, Some e)
  | (patients', None) =>
      (* store outputs of this simulation *)
      let '(outcomes, e) := extract_outcomes (cohortOutcomes self) patients' in
      ({| Cohort_id := Cohort_id self;
          patients := patients';
          cohortOutcomes := outcomes |}, e)
  end.

End MarkovModelClasses.

Arguments PatientStateMonitor : clear implicits.
Arguments Patient : clear implicits.
Arguments Cohort : clear implicits.

(** ** An instance of the interfaces, for the examples

    The health states of an HIV model with four states, numbered in the
    order of progression, and a small generator: a linear congruential
    stream of uniform draws with inverse-CDF sampling from the cumulative
    sums of the probability vector.  It stands in for SimPy's generator
    and is not that generator: on a chain with chance its draws, and so
    the trajectories, differ from those of the library, and it accepts a
    probability vector only when it sums to 1 exactly.  On a chain whose
    rows are 0/1 vectors every inverse-CDF sampler returns the index of
    the 1, whatever it draws.  The theorems below hold for every instance;
    this one runs them on concrete cohorts. *)

Module HIV.

Inductive state : Set :=
| st_CD4_200to500
| st_CD4_200
| st_AIDS
| st_HIV_DEATH.

#[export] Instance state_eq_dec : EqDecision state.
Proof. solve_decision. Defined.

Definition state_value (s : state) : Z :=
  match s with
  | st_CD4_200to500 => 0
  | st_CD4_200 => 1
  | st_AIDS => 2
  | st_HIV_DEATH => 3
  end.

Definition state_of_value (i : Z) : option state :=
  match i with
  | 0 => Some st_CD4_200to500
  | 1 => Some st_CD4_200
  | 2 => Some st_AIDS
  | 3 => Some st_HIV_DEATH
  | _ => None
  end.

#[export] Instance health_states : HealthStateEnum state :=
  {| CD4_200to500 := st_CD4_200to500;
     AIDS := st_AIDS;
     HIV_DEATH := st_HIV_DEATH;
     value := state_value;
     HealthState_of_value := state_of_value |}.

(** A monitor as [__init__] leaves it. *)
Definition fresh : PatientStateMonitor state := PatientStateMonitor_init.

(** The stream: the seed is the first state, each draw advances it. *)
Definition lcg (s : Z) : Z := (1103515245 * s + 12345) mod 2147483648.

(** The uniform draw in [0, 1) read off a state of the stream. *)
Definition uniform (s : Z) : Q := Qmake (lcg s) 2147483648.

(** The first index whose cumulative probability exceeds [u]; the last
    index when rounding leaves none. *)
Fixpoint inverse_cdf (probs : list Q) (u : Q) (j : Z) (c : Q) : Z :=
  match probs with
  | [] => Z.max 0 (j - 1)
  | p :: rest =>
      let c := (c + p)%Q in
      if Qlt_le_dec u c then j else inverse_cdf rest u (j + 1) c
  end.

(** A probability vector has no negative entry and sums to one. *)
Definition valid_distribution (probs : list Q) : bool :=
  forallb (fun p => Qle_bool 0 p) probs && Qeq_bool (sum probs) 1.

#[export] Instance generators : RandomVariantGenerators Z (list Q) :=
  {| RNG := fun seed => seed;
     Empirical := fun probs =>
       if valid_distribution probs then inr probs else inl ValueError;
     sample := fun probs s => (inr (inverse_cdf probs (uniform s) 0 0), lcg s) |}.

(** Every state dies within the step. *)
Definition all_die : list (list Q) :=
  [[0; 0; 0; 1]; [0; 0; 0; 1]; [0; 0; 0; 1]; [0; 0; 0; 1]]%Q.

(** Every state stays where it is. *)
Definition identity : list (list Q) :=
  [[1; 0; 0; 0]; [0; 1; 0; 0]; [0; 0; 1; 0]; [0; 0; 0; 1]]%Q.

(** The first state and AIDS alternate. *)
Definition relapsing : list (list Q) :=
  [[0; 0; 1; 0]; [0; 0; 0; 1]; [1; 0; 0; 0]; [0; 0; 0; 1]]%Q.

(** Progression state by state: AIDS at step 1, death at step 2. *)
Definition progressive : list (list Q) :=
  [[0; 1; 0; 0]; [0; 0; 1; 0]; [0; 0; 0; 1]; [0; 0; 0; 1]]%Q.

(** A chain with chance in it: from the first state a patient stays,
    develops AIDS or dies; from AIDS it stays or dies. *)
Definition mixed : list (list Q) :=
  [[1 # 2; 0; 1 # 4; 1 # 4]; [0; 0; 0; 1]; [0; 0; 1 # 2; 1 # 2]; [0; 0; 0; 1]]%Q.

(** The chain with chance, with a row for AIDS that is no distribution. *)
Definition faulty : list (list Q) :=
  [[1 # 2; 0; 1 # 4; 1 # 4]; [0; 0; 0; 1]; [0; 0; 0; 0]; [0; 0; 0; 1]]%Q.

End HIV.

(** ** The vocabulary of the specification

    The three steps of [update] as section 4.4 of the specification words
    them, for the comparison with the code (each takes the monitor the
    previous one left), and the notions its properties are stated with. *)
Section UpdateContract.
Context {HealthState : Type} `{!HealthStateEnum HealthState}.

(** "If newState == TERMINAL: set survivalTime = time_step + 0.5". *)
Definition record_survival (time_step : Z) (new_state : HealthState)
    (m : PatientStateMonitor HealthState) : PatientStateMonitor HealthState :=
  if decide (new_state = HIV_DEATH)
  then {| currentState := currentState m;
          survivalTime := Some (inject_Z time_step + (1 # 2))%Q;
          timeToAIDS := timeToAIDS m;
          ifDevelopedAIDS := ifDevelopedAIDS m |}
  else m.

(** "If currentState != EVENT and newState == EVENT: set developedEvent =
    true and timeToEvent = time_step + 0.5". *)
Definition record_event (time_step : Z) (new_state : HealthState)
    (m : PatientStateMonitor HealthState) : PatientStateMonitor HealthState :=
  if decide (currentState m <> AIDS /\ new_state = AIDS)
  then {| currentState := currentState m;
          survivalTime := survivalTime m;
          timeToAIDS := Some (inject_Z time_step + (1 # 2))%Q;
          ifDevelopedAIDS := true |}
  else m.

(** "Unconditionally set currentState = newState". *)
Definition enter_state (new_state : HealthState)
    (m : PatientStateMonitor HealthState) : PatientStateMonitor HealthState :=
  {| currentState := new_state;
     survivalTime := survivalTime m;
     timeToAIDS := timeToAIDS m;
     ifDevelopedAIDS := ifDevelopedAIDS m |}.

(** The monitors that [__init__] followed by any number of [update]
    calls can produce. *)
Inductive reachable : PatientStateMonitor HealthState -> Prop :=
| reachable_init : reachable PatientStateMonitor_init
| reachable_update time_step new_state m :
    reachable m -> reachable (update time_step new_state m).

(** How many calls of a sequence change the field [timeToAIDS] of the
    monitor, read off the monitors that [update] itself returns.  Over a
    run the time steps increase, so every assignment of line 69 stores a
    value the field did not hold and is counted. *)
Fixpoint timeToAIDS_writes (calls : list (Z * HealthState))
    (m : PatientStateMonitor HealthState) : nat :=
  match calls with
  | [] => 0%nat
  | (time_step, new_state) :: rest =>
      ((if decide (timeToAIDS (update time_step new_state m) = timeToAIDS m)
        then 0 else 1)
       + timeToAIDS_writes rest (update time_step new_state m))%nat
  end.

(** How many times a patient in [state] that goes through [new_states]
    enters the event state from another state. *)
Fixpoint entries_into_AIDS (state : HealthState) (new_states : list HealthState)
    : nat :=
  match new_states with
  | [] => 0%nat
  | new_state :: rest =>
      ((if decide (state <> AIDS /\ new_state = AIDS) then 1 else 0)
       + entries_into_AIDS new_state rest)%nat
  end.

End UpdateContract.

Section SeedingContract.
Context {HealthState : Type} `{!HealthStateEnum HealthState}.
Context {rng empirical : Type} `{!RandomVariantGenerators rng empirical}.

(** Sections 4.1 and 4.5 of the specification: a patient whose id is
    [seed], whose stream is constructed from that seed, and whose monitor
    is new. *)
Definition patient_seeded (seed : Z) (M : list (list Q)) : Patient HealthState rng :=
  {| Patient_id := seed;
     Patient_rng := RNG seed;
     tranProbMatrix := M;
     stateMonitor := {| currentState := CD4_200to500;
                        survivalTime := None;
                        timeToAIDS := None;
                        ifDevelopedAIDS := false |} |}.

(** The patient [self] under another id. *)
Definition with_id (id : Z) (self : Patient HealthState rng) : Patient HealthState rng :=
  {| Patient_id := id;
     Patient_rng := Patient_rng self;
     tranProbMatrix := tranProbMatrix self;
     stateMonitor := stateMonitor self |}.

End SeedingContract.

(** The survival curve of section 4.6: initial size [N], the recorded
    survival times in ascending order, one decrement of 1 for each. *)
Definition curve_as_specified (N : nat) (recorded : list Q)
    (path : PrevalencePathBatchUpdate) : Prop :=
  initial_size path = N
  /\ increments path = replicate (length recorded) (-1)
  /\ Permutation (times_of_changes path) recorded
  /\ Sorted Qle (times_of_changes path).

(** ** Properties of the monitor *)

Lemma half_cycle_le (j k : Z) : j <= k -> (half_cycle j <= half_cycle k)%Q.
Proof. intros Hjk. unfold half_cycle, half, Qle. simpl. lia. Qed.

Section MonitorProperties.
Context {HealthState : Type} `{!HealthStateEnum HealthState}.
Implicit Types (m : PatientStateMonitor HealthState) (s : HealthState) (t : Z).

Lemma get_if_alive_true m :
  get_if_alive m = true <-> currentState m <> HIV_DEATH.
Proof. unfold get_if_alive. case_decide; intuition congruence. Qed.

Lemma get_if_alive_false m :
  get_if_alive m = false <-> currentState m = HIV_DEATH.
Proof.
  unfold get_if_alive. case_decide as Hd; split; try done.
Qed.

Lemma update_dead t s m : currentState m = HIV_DEATH -> update t s m = m.
Proof. intros Hd. unfold update. by rewrite decide_True. Qed.

Lemma currentState_update t s m :
  currentState m <> HIV_DEATH -> currentState (update t s m) = s.
Proof. intros Ha. unfold update. by rewrite decide_False. Qed.

Lemma survivalTime_update t s m :
  currentState m <> HIV_DEATH ->
  survivalTime (update t s m)
  = if decide (s = HIV_DEATH) then Some (half_cycle t) else survivalTime m.
Proof.
  intros Ha. unfold update. rewrite decide_False by done.
  repeat case_decide; reflexivity.
Qed.

Lemma timeToAIDS_update t s m :
  timeToAIDS (update t s m)
  = if assigns_timeToAIDS s m then Some (half_cycle t) else timeToAIDS m.
Proof.
  unfold update, assigns_timeToAIDS.
  destruct (decide (currentState m = HIV_DEATH)) as [Hd|Ha].
  - rewrite bool_decide_eq_false_2; [done | intuition congruence].
  - destruct (decide (s = HIV_DEATH)); simpl;
      destruct (decide (currentState m <> AIDS /\ s = AIDS)); simpl;
      (rewrite bool_decide_eq_true_2 by intuition congruence)
      || (rewrite bool_decide_eq_false_2 by intuition congruence); done.
Qed.

Lemma ifDevelopedAIDS_update t s m :
  ifDevelopedAIDS (update t s m)
  = if assigns_timeToAIDS s m then true else ifDevelopedAIDS m.
Proof.
  unfold update, assigns_timeToAIDS.
  destruct (decide (currentState m = HIV_DEATH)) as [Hd|Ha].
  - rewrite bool_decide_eq_false_2; [done | intuition congruence].
  - destruct (decide (s = HIV_DEATH)); simpl;
      destruct (decide (currentState m <> AIDS /\ s = AIDS)); simpl;
      (rewrite bool_decide_eq_true_2 by intuition congruence)
      || (rewrite bool_decide_eq_false_2 by intuition congruence); done.
Qed.

(** C1. A call [update(time_step, new_state)] on a monitor that is not in
    the terminal state does, in this order: record the survival time
    [time_step + 0.5] if the new state is terminal; set the flag and the
    time to the event to [time_step + 0.5] if the monitor is not in the
    event state and the new state is; assign the new state.  The fields
    after the call are spelled out as well, the recorded time as the
    number [time_step + 1/2]. *)
Theorem update_applies_steps_in_order t s m :
  currentState m <> HIV_DEATH ->
  update t s m = enter_state s (record_event t s (record_survival t s m))
  /\ currentState (update t s m) = s
  /\ survivalTime (update t s m)
     = (if decide (s = HIV_DEATH)
        then Some (inject_Z t + (1 # 2))%Q else survivalTime m)
  /\ timeToAIDS (update t s m)
     = (if decide (currentState m <> AIDS /\ s = AIDS)
        then Some (inject_Z t + (1 # 2))%Q else timeToAIDS m)
  /\ ifDevelopedAIDS (update t s m)
     = (if decide (currentState m <> AIDS /\ s = AIDS)
        then true else ifDevelopedAIDS m)
  /\ (forall time, survivalTime (update t s m) = Some time -> s = HIV_DEATH ->
        Qnum time = 2 * t + 1 /\ Qden time = 2%positive).
Proof.
  intros Ha. unfold update, enter_state, record_event, record_survival.
  rewrite decide_False by done.
  assert (forall time : Q,
             Some (inject_Z t + (1 # 2))%Q = Some time ->
             Qnum time = 2 * t + 1 /\ Qden time = 2%positive) as Hvalue.
  { intros time [= <-]. simpl. split; [lia | done]. }
  destruct (decide (s = HIV_DEATH)); simpl;
    destruct (decide (currentState m <> AIDS /\ s = AIDS)); simpl;
    (split; [done|]); (split; [done|]); (split; [done|]);
    (split; [done|]); (split; [done|]); intros time Htime Hs;
    solve [by apply Hvalue | done].
Qed.

(** C10. In every monitor that [__init__] and [update] calls can produce,
    [ifDevelopedAIDS] holds exactly when [timeToAIDS] is not [None]. *)
Theorem developed_iff_time_set m :
  reachable m -> (ifDevelopedAIDS m = true <-> timeToAIDS m <> None).
Proof.
  induction 1 as [|t s m _ IH]; [done|].
  rewrite timeToAIDS_update, ifDevelopedAIDS_update.
  by destruct (assigns_timeToAIDS s m).
Qed.

End MonitorProperties.

(** ** Properties of the simulation of one patient *)

Section PatientProperties.
Context {HealthState : Type} `{!HealthStateEnum HealthState}.
Context {rng empirical : Type} `{!RandomVariantGenerators rng empirical}.
Implicit Types (self : Patient HealthState rng) (m : PatientStateMonitor HealthState).
Implicit Types (s : HealthState) (n k : Z).

(** Drawing touches the generator only. *)
Lemma draw_new_state_stateMonitor self :
  stateMonitor (draw_new_state self).1 = stateMonitor self.
Proof.
  unfold draw_new_state.
  destruct (getitem _ _) as [e|probs]; [done|].
  destruct (Empirical probs) as [e|dist]; [done|].
  destruct (sample dist _) as [[e|i] r]; [done|].
  by destruct (HealthState_of_value i).
Qed.

(** The loop, unfolded once. *)
Lemma simulate_while_once self n k :
  simulate_while self n k
  = if decide (get_if_alive (stateMonitor self) = true /\ k < n) then
      match draw_new_state self with
      | (self', inl e) => (self', Some e)
      | (self', inr s) => simulate_while (update_patient k s self') n (k + 1)
      end
    else (self, None).
Proof.
  simp simulate_while.
  destruct (decide _) as [Hc|Hc]; simpl; [|done].
  by destruct (draw_new_state self) as [self' [e|s]].
Qed.

Lemma update_calls_from_once self n k :
  update_calls_from self n k
  = if decide (get_if_alive (stateMonitor self) = true /\ k < n) then
      match draw_new_state self with
      | (self', inl e) => []
      | (self', inr s) =>
          (k, s) :: update_calls_from (update_patient k s self') n (k + 1)
      end
    else [].
Proof.
  simp update_calls_from.
  destruct (decide _) as [Hc|Hc]; simpl; [|done].
  by destruct (draw_new_state self) as [self' [e|s]].
Qed.

(** Induction along the iterations of the loop: to show [P] of the loop
    entered at [self], [k], one may assume it of the loop entered after
    one more iteration. *)
Lemma simulate_while_ind (n : Z) (P : Patient HealthState rng -> Z -> Prop) :
  (forall self k,
      (forall self' s,
          currentState (stateMonitor self) <> HIV_DEATH -> k < n ->
          draw_new_state self = (self', inr s) ->
          P (update_patient k s self') (k + 1)) ->
      P self k) ->
  forall self k, P self k.
Proof.
  intros step self k.
  remember (Z.to_nat (n - k)) as fuel eqn:Hfuel.
  revert self k Hfuel.
  induction fuel as [|fuel IH]; intros self k Hfuel; apply step.
  - intros; lia.
  - intros self' s _ Hk _. apply IH. lia.
Qed.

(** A dead patient is left as it is, generator included. *)
Lemma simulate_while_dead self n k :
  currentState (stateMonitor self) = HIV_DEATH ->
  simulate_while self n k = (self, None).
Proof.
  intros Hd. rewrite simulate_while_once.
  apply get_if_alive_false in Hd.
  rewrite decide_False; [done | rewrite Hd; intuition congruence].
Qed.

(** The final monitor is the initial one after the calls of the run. *)
Lemma simulate_while_apply_updates n self k :
  stateMonitor (simulate_while self n k).1
  = apply_updates (update_calls_from self n k) (stateMonitor self).
Proof.
  revert self k. apply (simulate_while_ind n). intros self k IH.
  rewrite simulate_while_once, update_calls_from_once.
  destruct (decide _) as [[Ha Hk]|_]; [|done].
  apply get_if_alive_true in Ha.
  pose proof (draw_new_state_stateMonitor self) as Hm.
  destruct (draw_new_state self) as [self' [e|s]] eqn:Hdraw; simpl in *; [done|].
  rewrite (IH self' s Ha Hk eq_refl). unfold update_patient; simpl.
  by rewrite Hm.
Qed.

(** A loop invariant over the counter and the monitor holds of the
    monitor the loop leaves, for some value of the counter; this covers
    the exits by an exception, which leave the monitor of the last
    completed iteration. *)
Lemma simulate_while_invariant (n : Z)
    (I : Z -> PatientStateMonitor HealthState -> Prop) :
  (forall k m s,
      I k m -> currentState m <> HIV_DEATH -> k < n -> I (k + 1) (update k s m)) ->
  forall self k,
    I k (stateMonitor self) ->
    exists k', I k' (stateMonitor (simulate_while self n k).1).
Proof.
  intros Hstep. apply (simulate_while_ind n (fun self k => I k _ -> _)).
  intros self k IH Hinv.
  rewrite simulate_while_once.
  destruct (decide _) as [[Ha Hk]|_]; [|by exists k].
  apply get_if_alive_true in Ha.
  pose proof (draw_new_state_stateMonitor self) as Hm.
  destruct (draw_new_state self) as [self' [e|s]] eqn:Hdraw; simpl in *.
  - exists k. by rewrite Hm.
  - apply (IH self' s Ha Hk eq_refl). unfold update_patient; simpl.
    rewrite Hm. by apply Hstep.
Qed.

(** Extending the horizon of a run that ended with the patient dead
    changes nothing. *)
Lemma simulate_while_absorbed n n' self k self' :
  n <= n' ->
  simulate_while self n k = (self', None) ->
  currentState (stateMonitor self') = HIV_DEATH ->
  simulate_while self n' k = (self', None).
Proof.
  intros Hn. revert self k.
  apply (simulate_while_ind n
           (fun self k => simulate_while self n k = _ -> _ -> simulate_while self n' k = _)).
  intros self k IH Hrun Hd.
  rewrite simulate_while_once in Hrun.
  destruct (decide _) as [[Ha Hk]|Hstop].
  - rewrite simulate_while_once, decide_True by (split; [done | lia]).
    apply get_if_alive_true in Ha.
    destruct (draw_new_state self) as [self1 [e|s]] eqn:Hdraw; [done|].
    by apply (IH self1 s).
  - injection Hrun as <-. by apply simulate_while_dead.
Qed.

Lemma update_calls_from_absorbed n n' self k self' :
  n <= n' ->
  simulate_while self n k = (self', None) ->
  currentState (stateMonitor self') = HIV_DEATH ->
  update_calls_from self n' k = update_calls_from self n k.
Proof.
  intros Hn. revert self k.
  apply (simulate_while_ind n
           (fun self k => simulate_while self n k = _ -> _ ->
                          update_calls_from self n' k = update_calls_from self n k)).
  intros self k IH Hrun Hd.
  rewrite simulate_while_once in Hrun.
  rewrite (update_calls_from_once self n), (update_calls_from_once self n').
  destruct (decide (_ /\ k < n)) as [[Ha Hk]|Hstop].
  - rewrite decide_True by (split; [done | lia]).
    apply get_if_alive_true in Ha.
    destruct (draw_new_state self) as [self1 [e|s]] eqn:Hdraw; [done|].
    f_equal. by apply (IH self1 s).
  - injection Hrun as <-. apply get_if_alive_false in Hd.
    rewrite decide_False; [done | rewrite Hd; intuition congruence].
Qed.

(** C2. When a run of [simulate] has ended with the patient in the
    terminal state, every run with a longer horizon ends with the very
    same patient object: same monitor, hence same [currentState], and same
    generator, hence no further draw; it makes no further [update] call;
    the loop entered again on that patient returns at once; and any
    [update] call on its monitor leaves the monitor as it is. *)
Theorem absorbed_patient_is_frozen self n self' :
  Patient_simulate self n = (self', None) ->
  currentState (stateMonitor self') = HIV_DEATH ->
  (forall n', n <= n' ->
     Patient_simulate self n' = (self', None)
     /\ update_calls self n' = update_calls self n)
  /\ (forall n' k, simulate_while self' n' k = (self', None))
  /\ (forall t s, update t s (stateMonitor self') = stateMonitor self').
Proof.
  intros Hrun Hd. repeat split.
  - by apply (simulate_while_absorbed n).
  - by apply (update_calls_from_absorbed n n' self 0 self').
  - intros. by apply simulate_while_dead.
  - intros. by apply update_dead.
Qed.

(** C4. After a run of [simulate] with horizon [n] on a newly created
    patient, a survival time that is set is [k + 0.5] for a step [k] with
    [0 <= k <= n - 1], that is, one of 0.5, 1.5, ..., n - 0.5. *)
Theorem survivalTime_within_horizon id M n t :
  survivalTime (stateMonitor (Patient_simulate (Patient_init id M) n).1) = Some t ->
  (exists k, 0 <= k <= n - 1 /\ t = half_cycle k)
  /\ t ∈ half_cycle <$> range n.
Proof.
  intros Hset.
  assert (exists k, 0 <= k <= n - 1 /\ t = half_cycle k) as (k & Hk & ->).
  { destruct (simulate_while_invariant n
      (fun k m => 0 <= k /\ forall t, survivalTime m = Some t ->
                    exists j, 0 <= j <= n - 1 /\ t = half_cycle j))
      with (self := Patient_init id M) (k := 0) as (k' & _ & Hinv).
    - intros k m s [Hk Hinv] Ha Hlt. split; [lia|]. intros t'.
      rewrite survivalTime_update by done. case_decide.
      + intros [= <-]. exists k. split; [lia | done].
      + apply Hinv.
    - split; [lia | done].
    - by apply Hinv. }
  split; [by exists k|].
  apply list_elem_of_fmap. exists k. split; [done|].
  unfold range. apply elem_of_seqZ. lia.
Qed.

Lemma half_cycle_injective (j k : Z) : half_cycle j = half_cycle k -> j = k.
Proof.
  unfold half_cycle, half, Qplus, inject_Z. simpl. intros [= Hjk]. lia.
Qed.

(** Over the calls of the loop entered with the counter at [k], on a
    monitor whose time to AIDS, if set, belongs to an earlier step, the
    field changes exactly at the calls that enter AIDS. *)
Lemma timeToAIDS_writes_entries n self k :
  (forall ta, timeToAIDS (stateMonitor self) = Some ta ->
     exists j, j < k /\ ta = half_cycle j) ->
  timeToAIDS_writes (update_calls_from self n k) (stateMonitor self)
  = entries_into_AIDS (currentState (stateMonitor self))
      (update_calls_from self n k).*2.
Proof.
  revert self k.
  apply (simulate_while_ind n
           (fun self k => _ -> timeToAIDS_writes (update_calls_from self n k) _ = _)).
  intros self k IH Hearlier.
  rewrite update_calls_from_once.
  destruct (decide _) as [[Ha Hk]|_]; [|done].
  apply get_if_alive_true in Ha.
  pose proof (draw_new_state_stateMonitor self) as Hm.
  destruct (draw_new_state self) as [self1 [e|s]] eqn:Hdraw; simpl in Hm; [done|].
  rewrite fmap_cons. cbn [timeToAIDS_writes entries_into_AIDS snd].
  rewrite <- Hm in Ha, Hearlier |- *.
  set (m := stateMonitor self1) in *.
  assert (stateMonitor (update_patient k s self1) = update k s m) as Hnext by done.
  rewrite <- Hnext, (IH self1 s); [|by rewrite <- Hm|done|done|].
  - rewrite Hnext, currentState_update by done. f_equal.
    rewrite timeToAIDS_update.
    unfold assigns_timeToAIDS.
    destruct (decide (currentState m <> AIDS /\ s = AIDS)) as [Henter|Hnot].
    + rewrite bool_decide_eq_true_2 by tauto.
      rewrite decide_False; [done|].
      intros Hsame. symmetry in Hsame.
      destruct (Hearlier _ Hsame) as (j & Hj & Heq).
      apply half_cycle_injective in Heq. lia.
    + rewrite bool_decide_eq_false_2 by tauto. by rewrite decide_True.
  - intros ta. rewrite Hnext, timeToAIDS_update.
    destruct (assigns_timeToAIDS s m).
    + intros [= <-]. exists k. split; [lia | done].
    + intros (j & Hj & ->)%Hearlier. exists j. split; [lia | done].
Qed.

(** C5, as the code has it. A call of [update] on a live monitor stores
    [time_step + 1/2] in [timeToAIDS] when it moves the monitor into AIDS
    from another state, and leaves the field alone otherwise.  Over a run
    of [simulate] on a newly created patient the field therefore changes
    as many times as the patient enters AIDS: once if it enters once,
    again at every return after it left.  And when both [timeToAIDS] and
    [survivalTime] are set after the run, the first is at most the
    second. *)
Theorem timeToAIDS_assignments_and_order id M n :
  let patient := Patient_init id M in
  let m := stateMonitor (Patient_simulate patient n).1 in
  (forall t s m0,
      currentState m0 <> HIV_DEATH ->
      timeToAIDS (update t s m0)
      = if decide (currentState m0 <> AIDS /\ s = AIDS)
        then Some (inject_Z t + (1 # 2))%Q else timeToAIDS m0)
  /\ timeToAIDS_writes (update_calls patient n) (stateMonitor patient)
     = entries_into_AIDS CD4_200to500 (update_calls patient n).*2
  /\ (forall ta ts,
        timeToAIDS m = Some ta -> survivalTime m = Some ts -> (ta <= ts)%Q).
Proof.
  intros patient m. split; [|split].
  { intros t s m0 Ha. rewrite timeToAIDS_update. unfold assigns_timeToAIDS.
    destruct (decide (currentState m0 <> AIDS /\ s = AIDS)).
    - by rewrite bool_decide_eq_true_2 by tauto.
    - by rewrite bool_decide_eq_false_2 by tauto. }
  { apply (timeToAIDS_writes_entries n patient 0). by intros ta. }
  destruct (simulate_while_invariant n
    (fun k m =>
       (forall ta, timeToAIDS m = Some ta -> exists j, j < k /\ ta = half_cycle j)
       /\ (forall ts, survivalTime m = Some ts ->
             currentState m = HIV_DEATH
             /\ forall ta, timeToAIDS m = Some ta -> (ta <= ts)%Q)))
    with (self := patient) (k := 0) as (k' & _ & Hinv).
  - intros k m0 s [Hta Hts] Ha Hlt. split.
    + intros ta. rewrite timeToAIDS_update.
      destruct (assigns_timeToAIDS s m0).
      * intros [= <-]. exists k. split; [lia | done].
      * intros (j & Hj & ->)%Hta. exists j. split; [lia | done].
    + intros ts. rewrite survivalTime_update, currentState_update by done.
      case_decide as Hs.
      * intros [= <-]. split; [done|]. intros ta.
        rewrite timeToAIDS_update. destruct (assigns_timeToAIDS s m0).
        -- intros [= <-]. apply Qle_refl.
        -- intros (j & Hj & ->)%Hta. apply half_cycle_le. lia.
      * intros [Hd _]%Hts. by destruct Ha.
  - split; intros ?; simpl; done.
  - intros ta ts Hta Hts. by apply (Hinv ts Hts).
Qed.

(** C8, as the code has it. A newly created monitor, and so every newly
    created patient whatever the caller passes for its id and its
    transition matrix, is in the state [CD4_200to500]: the constant of
    [PatientStateMonitor.__init__], which takes no argument. *)
Theorem initial_state_is_fixed id M :
  currentState (stateMonitor (Patient_init id M)) = CD4_200to500
  /\ currentState (PatientStateMonitor_init (HealthState := HealthState))
     = CD4_200to500.
Proof. done. Qed.

End PatientProperties.

(** ** Properties of the cohort and of its outcomes *)

Section CohortProperties.
Context {HealthState : Type} `{!HealthStateEnum HealthState}.
Context {rng empirical : Type} `{!RandomVariantGenerators rng empirical}.
Implicit Types (self : CohortOutcomes) (patient : Patient HealthState rng).
Implicit Types (ps : list (Patient HealthState rng)).

Lemma fold_left_append {A B : Type} (f : B -> A) (l : list B) (acc : list A) :
  fold_left (fun acc i => acc ++ [f i]) l acc = acc ++ (f <$> l).
Proof.
  revert acc. induction l as [|i l IH]; intros acc; simpl.
  - by rewrite app_nil_r.
  - by rewrite IH, <- app_assoc.
Qed.

(** The patients of a new cohort, in creation order. *)
Lemma patients_Cohort_init id N M :
  patients (Cohort_init id N M)
  = (fun i => Patient_init (id * N + i) M) <$> range N.
Proof. unfold Cohort_init; simpl. by rewrite fold_left_append. Qed.

(** What the [for] loop of [extract_outcomes] leaves in each field. *)
Lemma survivalTimes_recorded ps self :
  survivalTimes (fold_left record_patient ps self)
  = survivalTimes self ++ omap (fun patient => survivalTime (stateMonitor patient)) ps.
Proof.
  revert self. induction ps as [|patient ps IH]; intros self; simpl.
  - by rewrite app_nil_r.
  - rewrite IH. unfold record_patient; simpl.
    destruct (survivalTime (stateMonitor patient)); [|done].
    by rewrite <- app_assoc.
Qed.

Lemma timesToAIDS_recorded ps self :
  timesToAIDS (fold_left record_patient ps self)
  = timesToAIDS self
    ++ ((fun patient => timeToAIDS (stateMonitor patient))
          <$> filter (fun patient => ifDevelopedAIDS (stateMonitor patient) = true) ps).
Proof.
  revert self. induction ps as [|patient ps IH]; intros self; simpl.
  - by rewrite app_nil_r.
  - rewrite IH. unfold record_patient; simpl.
    destruct (ifDevelopedAIDS (stateMonitor patient)) eqn:Hdev.
    + rewrite filter_cons_True by done. by rewrite <- app_assoc.
    + rewrite filter_cons_False; [done | congruence].
Qed.

Lemma record_patients_other_fields ps self :
  meanSurvivalTime (fold_left record_patient ps self) = meanSurvivalTime self
  /\ meanTimeToAIDS (fold_left record_patient ps self) = meanTimeToAIDS self
  /\ nLivingPatients (fold_left record_patient ps self) = nLivingPatients self.
Proof.
  revert self. induction ps as [|patient ps IH]; intros self; simpl; [done|].
  destruct (IH (record_patient self patient)) as (-> & -> & ->). done.
Qed.

(** The lists of [extract_outcomes] are those of its loop, whether or not
    a mean raises afterwards. *)
Lemma extract_outcomes_lists self ps :
  survivalTimes (extract_outcomes self ps).1
  = survivalTimes (fold_left record_patient ps self)
  /\ timesToAIDS (extract_outcomes self ps).1
     = timesToAIDS (fold_left record_patient ps self).
Proof.
  unfold extract_outcomes.
  destruct (mean _) as [e|mean1]; [done|]; simpl.
  by destruct (mean_of_optional _) as [e|mean2].
Qed.

(** With no recorded time of either kind, the division raises, and the
    survival curve stays as it was. *)
Lemma extract_outcomes_empty_raises self ps :
  survivalTimes (fold_left record_patient ps self) = []
  \/ timesToAIDS (fold_left record_patient ps self) = [] ->
  (extract_outcomes self ps).2 = Some ZeroDivisionError
  /\ nLivingPatients (extract_outcomes self ps).1 = nLivingPatients self.
Proof.
  intros Hempty. unfold extract_outcomes.
  destruct (record_patients_other_fields ps self) as (_ & _ & Hpath).
  destruct Hempty as [Hempty|Hempty].
  - by rewrite Hempty.
  - destruct (mean _) as [[]|mean1] eqn:Hmean; simpl;
      try (by destruct (survivalTimes _)); try done.
    by rewrite Hempty.
Qed.

(** When no patient raises, each is simulated on its own. *)
Lemma simulate_patients_all ps n :
  Forall (fun patient => (Patient_simulate patient n).2 = None) ps ->
  simulate_patients ps n = ((fun patient => (Patient_simulate patient n).1) <$> ps, None).
Proof.
  induction 1 as [|patient ps Hok _ IH]; simpl; [done|].
  destruct (Patient_simulate patient n) as [patient' e]; simpl in *.
  subst e. by rewrite IH.
Qed.

(** X16. [extract_outcomes] goes through the patients
    once, in list order, appending the survival time of each patient that
    has one and the time to AIDS of each patient whose flag is set; when
    it then completes, the survival curve is built from the number of
    patients, the recorded survival times in that same order (they are
    not sorted here) and one increment of -1 for each. *)
Theorem extract_outcomes_records_in_order self ps :
  let outcomes := (extract_outcomes self ps).1 in
  survivalTimes outcomes
  = survivalTimes self ++ omap (fun patient => survivalTime (stateMonitor patient)) ps
  /\ timesToAIDS outcomes
     = timesToAIDS self
       ++ ((fun patient => timeToAIDS (stateMonitor patient))
             <$> filter (fun patient => ifDevelopedAIDS (stateMonitor patient) = true) ps)
  /\ ((extract_outcomes self ps).2 = None ->
      nLivingPatients outcomes
      = Some {| name := "# of living patients";
                initial_size := length ps;
                times_of_changes := survivalTimes outcomes;
                increments := replicate (length (survivalTimes outcomes)) (-1) |}).
Proof.
  intros outcomes. subst outcomes.
  destruct (extract_outcomes_lists self ps) as [-> ->].
  rewrite survivalTimes_recorded, timesToAIDS_recorded.
  repeat split. unfold extract_outcomes.
  destruct (mean _) as [e|mean1]; [done|]; simpl.
  destruct (mean_of_optional _) as [e|mean2]; [done|]; simpl.
  by rewrite survivalTimes_recorded.
Qed.

(** C9. A cohort built with id [c] and population size [N] holds [N]
    patients (none when [N] is not positive), the one at index [i] has id
    [c * N + i], and a cohort of the same size with another id shares no
    patient id with it. *)
Theorem cohort_patient_ids c N M :
  (0 <= N -> Z.of_nat (length (patients (Cohort_init c N M))) = N)
  /\ length (patients (Cohort_init c N M)) = Z.to_nat N
  /\ (forall i, 0 <= i < N ->
        Patient_id <$> patients (Cohort_init c N M) !! Z.to_nat i = Some (c * N + i))
  /\ (forall c' M' x,
        c <> c' ->
        x ∈ Patient_id <$> patients (Cohort_init c N M) ->
        x ∉ Patient_id <$> patients (Cohort_init c' N M')).
Proof.
  rewrite patients_Cohort_init. unfold range.
  assert (length ((fun i => Patient_init (c * N + i) M) <$> seqZ 0 N) = Z.to_nat N)
    as Hlen by (by rewrite length_fmap, length_seqZ).
  repeat split.
  - rewrite Hlen. lia.
  - done.
  - intros i Hi. rewrite list_lookup_fmap.
    rewrite (lookup_seqZ_lt 0 N (Z.to_nat i)) by lia. simpl.
    f_equal. lia.
  - intros c' M' x Hne Hin Hin'.
    rewrite patients_Cohort_init in Hin'. unfold range in Hin'.
    rewrite <- list_fmap_compose in Hin, Hin'.
    apply list_elem_of_fmap in Hin as (i & -> & Hi%elem_of_seqZ).
    apply list_elem_of_fmap in Hin' as (j & Heq & Hj%elem_of_seqZ).
    simpl in Heq. nia.
Qed.

Lemma omap_fmap_compose {A B C : Type} (f : A -> B) (g : B -> option C) (l : list A) :
  omap g (f <$> l) = omap (fun x => g (f x)) l.
Proof.
  induction l as [|x l IH]; [done|].
  rewrite fmap_cons. cbn [omap list_omap]. fold (omap g (f <$> l)).
  rewrite IH. done.
Qed.

Lemma filter_fmap_flag {A B : Type} (f : A -> B) (flag : B -> bool) (l : list A) :
  filter (fun y => flag y = true) (f <$> l)
  = f <$> filter (fun x => flag (f x) = true) l.
Proof.
  induction l as [|x l IH]; [done|].
  rewrite fmap_cons. destruct (flag (f x)) eqn:Hflag.
  - rewrite !filter_cons_True by done. by rewrite fmap_cons, IH.
  - rewrite !filter_cons_False by congruence. done.
Qed.

(** The id of a patient takes no part in its simulation. *)
Lemma draw_new_state_with_id id (patient : Patient HealthState rng) :
  draw_new_state (with_id id patient)
  = (with_id id (draw_new_state patient).1, (draw_new_state patient).2).
Proof.
  unfold draw_new_state. simpl.
  destruct (getitem _ _) as [e|probs]; [done|].
  destruct (Empirical probs) as [e|dist]; [done|].
  destruct (sample dist _) as [[e|i] r]; [done|].
  by destruct (HealthState_of_value i).
Qed.

Lemma simulate_while_with_id id n (patient : Patient HealthState rng) k :
  simulate_while (with_id id patient) n k
  = (with_id id (simulate_while patient n k).1, (simulate_while patient n k).2).
Proof.
  revert patient k. apply (simulate_while_ind n). intros patient k IH.
  rewrite (simulate_while_once patient), (simulate_while_once (with_id id patient)).
  simpl. destruct (decide _) as [[Ha Hk]|_]; [|done].
  apply get_if_alive_true in Ha.
  rewrite draw_new_state_with_id.
  destruct (draw_new_state patient) as [patient' [e|s]] eqn:Hdraw; simpl; [done|].
  by rewrite <- (IH patient' s).
Qed.

(** C6. Two cohort simulations with the same cohort id, population size,
    transition matrix and horizon leave the same survival times and the
    same times to AIDS, in the same order.  The patient at index [i] of a
    cohort is the patient with id and seed [id * N + i]; when no patient
    raises, it ends as that seeded patient simulated alone does, and the
    two sequences are read off those solitary runs.  A solitary run is
    settled by the seed, the matrix and the horizon: any patient with a
    new monitor, that matrix and a generator built from that seed ends
    with the same monitor, the same generator and the same exception,
    whatever its id. *)
Theorem cohort_outcomes_determined_by_seeds id N M n id' N' M' n' :
  id = id' -> N = N' -> M = M' -> n = n' ->
  let run := (Cohort_simulate (Cohort_init id N M) n).1 in
  let run' := (Cohort_simulate (Cohort_init id' N' M') n').1 in
  let alone i := Patient_simulate (patient_seeded (id * N + i) M) n in
  (survivalTimes (cohortOutcomes run) = survivalTimes (cohortOutcomes run')
   /\ timesToAIDS (cohortOutcomes run) = timesToAIDS (cohortOutcomes run'))
  /\ patients (Cohort_init id N M)
     = (fun i => patient_seeded (id * N + i) M) <$> range N
  /\ (Forall (fun i => (alone i).2 = None) (range N) ->
      patients run = (fun i => (alone i).1) <$> range N
      /\ survivalTimes (cohortOutcomes run)
         = omap (fun i => survivalTime (stateMonitor (alone i).1)) (range N)
      /\ timesToAIDS (cohortOutcomes run)
         = (fun i => timeToAIDS (stateMonitor (alone i).1))
             <$> filter (fun i => ifDevelopedAIDS (stateMonitor (alone i).1) = true)
                   (range N))
  /\ (forall i (patient : Patient HealthState rng),
        Patient_rng patient = RNG (id * N + i) ->
        tranProbMatrix patient = M ->
        stateMonitor patient = PatientStateMonitor_init ->
        (Patient_simulate patient n).2 = (alone i).2
        /\ stateMonitor (Patient_simulate patient n).1 = stateMonitor (alone i).1
        /\ Patient_rng (Patient_simulate patient n).1 = Patient_rng (alone i).1).
Proof.
  intros <- <- <- <- run run' alone. split; [done|].
  split; [apply patients_Cohort_init|].
  split.
  - intros Hok. subst run. unfold Cohort_simulate.
    rewrite patients_Cohort_init, simulate_patients_all
      by (by apply Forall_fmap).
    rewrite <- list_fmap_compose.
    set (ps := _ <$> range N).
    pose proof (extract_outcomes_lists CohortOutcomes_init ps) as [Hs Ha].
    destruct (extract_outcomes _ ps) as [outcomes e]; simpl in *.
    rewrite Hs, Ha, survivalTimes_recorded, timesToAIDS_recorded. simpl.
    subst ps. split; [done|].
    split.
    + by rewrite omap_fmap_compose.
    + rewrite (filter_fmap_flag _ (fun patient => ifDevelopedAIDS (stateMonitor patient))).
      by rewrite <- list_fmap_compose.
  - intros i patient Hrng HM Hmonitor.
    assert (patient = with_id (Patient_id patient) (patient_seeded (id * N + i) M))
      as ->.
    { destruct patient; simpl in *. by subst. }
    subst alone. unfold Patient_simulate. rewrite simulate_while_with_id. done.
Qed.

End CohortProperties.

(** ** The properties on concrete patients and cohorts *)

Section Examples.
Import HIV.

(** [update(2, AIDS)] on a new monitor, then [update(3, HIV_DEATH)]: the
    time to AIDS is 2.5, the survival time 3.5, and the last call leaves
    the time to AIDS as it was. *)
Lemma update_applies_steps_in_order_witness :
  let sick := update 2 st_AIDS fresh in
  currentState fresh <> HIV_DEATH
  /\ currentState sick <> HIV_DEATH
  /\ sick = {| currentState := st_AIDS;
               survivalTime := None;
               timeToAIDS := Some (5 # 2);
               ifDevelopedAIDS := true |}
  /\ update 3 st_HIV_DEATH sick
     = {| currentState := st_HIV_DEATH;
          survivalTime := Some (7 # 2);
          timeToAIDS := Some (5 # 2);
          ifDevelopedAIDS := true |}.
Proof.
  intros sick.
  assert (currentState fresh <> HIV_DEATH) as Halive by (simpl; discriminate).
  assert (currentState sick <> HIV_DEATH) as Hsick by (simpl; discriminate).
  destruct (update_applies_steps_in_order 2 st_AIDS fresh Halive) as [Hfirst _].
  destruct (update_applies_steps_in_order 3 st_HIV_DEATH sick Hsick) as [Hsecond _].
  refine (conj Halive (conj Hsick (conj _ _))).
  - unfold sick. rewrite Hfirst. reflexivity.
  - rewrite Hsecond. reflexivity.
Defined.

(** A monitor after one call. *)
Lemma developed_iff_time_set_witness :
  reachable (update 0 st_AIDS fresh)
  /\ (ifDevelopedAIDS (update 0 st_AIDS fresh) = true
      <-> timeToAIDS (update 0 st_AIDS fresh) <> None).
Proof.
  assert (reachable (update 0 st_AIDS fresh)) as Hreach
    by (apply reachable_update, reachable_init).
  split; [exact Hreach|].
  exact (developed_iff_time_set _ Hreach).
Defined.

(** A patient that dies in the first step, run for 1 and for 10 steps. *)
Lemma absorbed_patient_is_frozen_witness :
  let patient := Patient_init 0 all_die in
  let dead := (Patient_simulate patient 1).1 in
  Patient_simulate patient 1 = (dead, None)
  /\ currentState (stateMonitor dead) = HIV_DEATH
  /\ Patient_simulate patient 10 = (dead, None)
  /\ Patient_rng dead = lcg 0.
Proof.
  intros patient dead.
  assert (Patient_simulate patient 1 = (dead, None)) as Hrun
    by (vm_compute; reflexivity).
  assert (currentState (stateMonitor dead) = HIV_DEATH) as Hdead
    by (vm_compute; reflexivity).
  destruct (absorbed_patient_is_frozen patient 1 dead Hrun Hdead) as [Hlater _].
  destruct (Hlater 10 ltac:(lia)) as [Hten _].
  refine (conj Hrun (conj Hdead (conj Hten _))). vm_compute. reflexivity.
Defined.

(** Seed 7 on the progressive chain dies in step 2 of 10. *)
Lemma survivalTime_within_horizon_witness :
  survivalTime (stateMonitor (Patient_simulate (Patient_init 7 progressive) 10).1)
  = Some (5 # 2)
  /\ exists k, 0 <= k <= 10 - 1 /\ (5 # 2)%Q = half_cycle k.
Proof.
  assert (survivalTime (stateMonitor (Patient_simulate (Patient_init 7 progressive) 10).1)
          = Some (5 # 2)) as Hset by (vm_compute; reflexivity).
  split; [exact Hset|].
  exact (proj1 (survivalTime_within_horizon 7 progressive 10 (5 # 2) Hset)).
Defined.

(** Seed 7 on the progressive chain enters AIDS once, at 1.5, before
    death at 2.5; seed 0 on the alternating chain enters it twice. *)
Lemma timeToAIDS_assignments_and_order_witness :
  let patient := Patient_init 7 progressive in
  let m := stateMonitor (Patient_simulate patient 10).1 in
  let relapse := Patient_init 0 relapsing in
  timeToAIDS_writes (update_calls patient 10) (stateMonitor patient) = 1%nat
  /\ timeToAIDS m = Some (3 # 2)
  /\ survivalTime m = Some (5 # 2)
  /\ (3 # 2 <= 5 # 2)%Q
  /\ timeToAIDS_writes (update_calls relapse 3) (stateMonitor relapse) = 2%nat.
Proof.
  intros patient m relapse.
  assert (timeToAIDS m = Some (3 # 2)) as Hta by (vm_compute; reflexivity).
  assert (survivalTime m = Some (5 # 2)) as Hts by (vm_compute; reflexivity).
  destruct (timeToAIDS_assignments_and_order 7 progressive 10) as (_ & Hwrites & Hle).
  destruct (timeToAIDS_assignments_and_order 0 relapsing 3) as (_ & Hwrites' & _).
  refine (conj _ (conj Hta (conj Hts (conj (Hle _ _ Hta Hts) _)))).
  - fold patient in Hwrites. rewrite Hwrites. vm_compute. reflexivity.
  - fold relapse in Hwrites'. rewrite Hwrites'. vm_compute. reflexivity.
Defined.

(** C5, counterexample. On the chain in which the first state and AIDS
    alternate, a run of three steps calls [update] with AIDS, the first
    state, and AIDS again: [timeToAIDS] is assigned at step 0 and again at
    step 2, and ends at 2.5. *)
Lemma timeToAIDS_assigned_twice :
  let patient := Patient_init 0 relapsing in
  update_calls patient 3 = [(0, st_AIDS); (1, st_CD4_200to500); (2, st_AIDS)]
  /\ timeToAIDS (stateMonitor (Patient_simulate patient 1).1) = Some (1 # 2)
  /\ timeToAIDS (stateMonitor (Patient_simulate patient 2).1) = Some (1 # 2)
  /\ timeToAIDS (stateMonitor (Patient_simulate patient 3).1) = Some (5 # 2)
  /\ ~ (timeToAIDS_writes (update_calls patient 3) (stateMonitor patient) <= 1)%nat.
Proof.
  intros patient.
  assert (timeToAIDS_writes (update_calls patient 3) (stateMonitor patient) = 2%nat)
    as Htwice by (vm_compute; reflexivity).
  split; [vm_compute; reflexivity|].
  split; [vm_compute; reflexivity|].
  split; [vm_compute; reflexivity|].
  split; [vm_compute; reflexivity|].
  rewrite Htwice. lia.
Qed.

(** C8, counterexample. No id and no transition matrix passed to
    [Patient] starts the patient in AIDS, so the caller does not choose
    the initial state. *)
Lemma initial_state_not_supplied :
  ~ (forall start : state, exists id M,
        currentState (stateMonitor (Patient_init id M)) = start).
Proof.
  intros Hany. destruct (Hany st_AIDS) as (id & M & Hstart).
  simpl in Hstart. discriminate Hstart.
Qed.

(** Cohort 2 of two patients on the chain with chance: the generators are
    built from the seeds 4 and 5, and the two patients, simulated alone
    from those seeds, die at 8.5 and at 3.5. *)
Lemma cohort_outcomes_determined_by_seeds_witness :
  let run := (Cohort_simulate (Cohort_init 2 2 mixed) 10).1 in
  let alone i := Patient_simulate (patient_seeded (2 * 2 + i) mixed) 10 in
  Forall (fun i => (alone i).2 = None) (range 2)
  /\ Patient_rng <$> patients (Cohort_init 2 2 mixed) = [RNG 4; RNG 5]
  /\ survivalTimes (cohortOutcomes run)
     = omap (fun i => survivalTime (stateMonitor (alone i).1)) (range 2)
  /\ survivalTimes (cohortOutcomes run) = [17 # 2; 7 # 2]%Q.
Proof.
  intros run alone.
  assert (Forall (fun i => (alone i).2 = None) (range 2)) as Hok
    by (repeat constructor).
  destruct (cohort_outcomes_determined_by_seeds
              2 2 mixed 10 2 2 mixed 10
              eq_refl eq_refl eq_refl eq_refl) as (_ & Hseeded & Hseeds & _).
  destruct (Hseeds Hok) as (_ & Hsurvival & _).
  refine (conj Hok (conj _ (conj Hsurvival _))).
  - rewrite Hseeded. vm_compute. reflexivity.
  - vm_compute. reflexivity.
Defined.

(** Cohort 2 of two patients on the chain with chance: the aggregation
    completes. *)
Lemma extract_outcomes_records_in_order_witness :
  let ps := (simulate_patients (patients (Cohort_init 2 2 mixed)) 10).1 in
  (extract_outcomes CohortOutcomes_init ps).2 = None
  /\ nLivingPatients (extract_outcomes CohortOutcomes_init ps).1
     = Some {| name := "# of living patients";
               initial_size := 2;
               times_of_changes := [17 # 2; 7 # 2]%Q;
               increments := [-1; -1] |}.
Proof.
  intros ps.
  assert ((extract_outcomes CohortOutcomes_init ps).2 = None) as Hdone
    by (vm_compute; reflexivity).
  destruct (extract_outcomes_records_in_order CohortOutcomes_init ps)
    as (_ & _ & Hcurve).
  split; [exact Hdone|].
  rewrite (Hcurve Hdone). vm_compute. reflexivity.
Defined.

(** Cohorts 1 and 2 of three patients: ids 3, 4, 5 and 6, 7, 8. *)
Lemma cohort_patient_ids_witness :
  (1 : Z) <> 2
  /\ Patient_id <$> patients (Cohort_init 1 3 progressive) = [3; 4; 5]
  /\ 4 ∈ Patient_id <$> patients (Cohort_init 1 3 progressive)
  /\ 4 ∉ Patient_id <$> patients (Cohort_init 2 3 progressive).
Proof.
  assert ((1 : Z) <> 2) as Hne by lia.
  assert (4 ∈ Patient_id <$> patients (Cohort_init 1 3 progressive)) as Hin
    by (vm_compute; apply list_elem_of_further, list_elem_of_here).
  destruct (cohort_patient_ids 1 3 progressive) as (_ & _ & _ & Hdisjoint).
  refine (conj Hne (conj _ (conj Hin (Hdisjoint 2 progressive 4 Hne Hin)))).
  vm_compute. reflexivity.
Defined.

(** C7, on the code. The scenario of section 8: five patients, every row
    going to death, horizon 10.  Every patient dies at 0.5 and the five
    survival times are recorded in order, but nobody develops AIDS, the
    mean of line 136 raises [ZeroDivisionError], and [extract_outcomes]
    leaves before line 139: no survival curve is built, where the claim
    has one of initial size 5 with five decrements. *)
Theorem survival_curve_not_built :
  let run := Cohort_simulate (Cohort_init 1 5 all_die) 10 in
  let outcomes := cohortOutcomes run.1 in
  (fun patient => survivalTime (stateMonitor patient)) <$> patients run.1
  = replicate 5 (Some (1 # 2)%Q)
  /\ survivalTimes outcomes = replicate 5 (1 # 2)%Q
  /\ timesToAIDS outcomes = []
  /\ (exists mu, meanSurvivalTime outcomes = Some mu /\ (mu == 1 # 2)%Q)
  /\ run.2 = Some ZeroDivisionError
  /\ nLivingPatients outcomes = None
  /\ ~ (exists path,
          nLivingPatients outcomes = Some path
          /\ curve_as_specified 5 (survivalTimes outcomes) path).
Proof.
  intros run outcomes.
  assert (nLivingPatients outcomes = None) as Hnone by (vm_compute; reflexivity).
  split; [vm_compute; reflexivity|].
  split; [vm_compute; reflexivity|].
  split; [vm_compute; reflexivity|].
  split; [eexists; split; [vm_compute; reflexivity | reflexivity]|].
  split; [vm_compute; reflexivity|].
  split; [exact Hnone|].
  intros (path & Hpath & _). rewrite Hnone in Hpath. discriminate Hpath.
Qed.

(** C3, on the code. With the identity matrix nobody dies within the
    horizon: the survival times are empty and [extract_outcomes] leaves
    through the [ZeroDivisionError] of the first mean, both means and
    the survival curve still [None].  When every patient dies in the
    first step nobody develops AIDS: the first mean is 0.5, the second
    raises [ZeroDivisionError], and no survival curve is built. *)
Theorem mean_of_no_outcome_raises :
  let nobody_dies := Cohort_simulate (Cohort_init 0 2 identity) 20 in
  let all_dead := Cohort_simulate (Cohort_init 1 5 all_die) 10 in
  (survivalTimes (cohortOutcomes nobody_dies.1) = []
   /\ nobody_dies.2 = Some ZeroDivisionError
   /\ meanSurvivalTime (cohortOutcomes nobody_dies.1) = None
   /\ meanTimeToAIDS (cohortOutcomes nobody_dies.1) = None
   /\ nLivingPatients (cohortOutcomes nobody_dies.1) = None)
  /\ (survivalTimes (cohortOutcomes all_dead.1)
      = [1 # 2; 1 # 2; 1 # 2; 1 # 2; 1 # 2]%Q
      /\ timesToAIDS (cohortOutcomes all_dead.1) = []
      /\ all_dead.2 = Some ZeroDivisionError
      /\ meanTimeToAIDS (cohortOutcomes all_dead.1) = None
      /\ nLivingPatients (cohortOutcomes all_dead.1) = None).
Proof. vm_compute. repeat split. Qed.

End Examples.


(** ** Further properties of the monitor and of the run of one patient *)

Section RunProperties.
Context {HealthState : Type} `{!HealthStateEnum HealthState}.
Context {rng empirical : Type} `{!RandomVariantGenerators rng empirical}.
Implicit Types (self : Patient HealthState rng) (m : PatientStateMonitor HealthState).
Implicit Types (s : HealthState) (n k : Z).

(** A survival time is only ever recorded on the call that kills. *)
Lemma reachable_survival_dead m :
  reachable m -> survivalTime m <> None -> currentState m = HIV_DEATH.
Proof.
  induction 1 as [|t s m _ IH]; [done|].
  destruct (decide (currentState m = HIV_DEATH)) as [Hd|Ha].
  - by rewrite update_dead.
  - rewrite survivalTime_update, currentState_update by done.
    case_decide; [done | tauto].
Qed.

Lemma reachable_dead_survival m :
  CD4_200to500 <> HIV_DEATH ->
  reachable m -> currentState m = HIV_DEATH -> survivalTime m <> None.
Proof.
  intros Hstart. induction 1 as [|t s m _ IH]; [done|].
  destruct (decide (currentState m = HIV_DEATH)) as [Hd|Ha].
  - by rewrite update_dead.
  - rewrite survivalTime_update, currentState_update by done.
    intros ->. by rewrite decide_True.
Qed.

(** The flag is raised together with the time (one half of the invariant
    of the monitor, in the form the aggregation needs). *)
Lemma reachable_flag_time m :
  reachable m -> ifDevelopedAIDS m = true -> is_Some (timeToAIDS m).
Proof.
  induction 1 as [|t s m _ IH]; [done|].
  rewrite timeToAIDS_update, ifDevelopedAIDS_update.
  destruct (assigns_timeToAIDS s m); [by eexists | done].
Qed.

(** X1. In every monitor that [__init__] and [update] calls can produce, a
    survival time is recorded exactly when the monitor is in the terminal
    state, provided the initial state is not the terminal one. *)
Theorem survivalTime_set_iff_dead m :
  CD4_200to500 <> HIV_DEATH ->
  reachable m ->
  (survivalTime m <> None <-> currentState m = HIV_DEATH).
Proof.
  intros Hstart Hreach. split.
  - by apply reachable_survival_dead.
  - by apply reachable_dead_survival.
Qed.

(** Drawing leaves the id and the matrix of the patient alone. *)
Lemma draw_new_state_fixed_fields self :
  Patient_id (draw_new_state self).1 = Patient_id self
  /\ tranProbMatrix (draw_new_state self).1 = tranProbMatrix self.
Proof.
  unfold draw_new_state.
  destruct (getitem _ _) as [e|probs]; [done|].
  destruct (Empirical probs) as [e|dist]; [done|].
  destruct (sample dist _) as [[e|i] r]; [done|].
  by destruct (HealthState_of_value i).
Qed.

Lemma simulate_while_fixed_fields n self k :
  Patient_id (simulate_while self n k).1 = Patient_id self
  /\ tranProbMatrix (simulate_while self n k).1 = tranProbMatrix self.
Proof.
  revert self k. apply (simulate_while_ind n). intros self k IH.
  rewrite simulate_while_once.
  destruct (decide _) as [[Ha Hk]|_]; [|done].
  apply get_if_alive_true in Ha.
  pose proof (draw_new_state_fixed_fields self) as [Hid HM].
  destruct (draw_new_state self) as [self' [e|s]] eqn:Hdraw; simpl in *; [done|].
  destruct (IH self' s Ha Hk eq_refl) as [-> ->]. done.
Qed.

(** The monitor a run leaves is one that [update] calls produce. *)
Lemma simulate_while_reachable n self k :
  reachable (stateMonitor self) ->
  reachable (stateMonitor (simulate_while self n k).1).
Proof.
  intros Hreach.
  destruct (simulate_while_invariant n (fun _ m => reachable m)) with self k
    as [k' Hend]; [|done..].
  intros k0 m s Hm _ _. by apply reachable_update.
Qed.

(** X2. The time steps passed to [update] over a run are 0, 1, 2, ... without
    a gap, at most [n_time_steps] of them; and when the run returns with
    the patient alive there are exactly [n_time_steps] calls (none for a
    horizon that is not positive). *)
Theorem update_calls_time_steps self n :
  (update_calls self n).*1 = range (Z.of_nat (length (update_calls self n)))
  /\ Z.of_nat (length (update_calls self n)) <= Z.max 0 n
  /\ (forall self',
        Patient_simulate self n = (self', None) ->
        currentState (stateMonitor self') <> HIV_DEATH ->
        Z.of_nat (length (update_calls self n)) = Z.max 0 n).
Proof.
  unfold update_calls, Patient_simulate, range.
  assert (forall self k, 0 <= k ->
    (update_calls_from self n k).*1
      = seqZ k (Z.of_nat (length (update_calls_from self n k)))
    /\ k + Z.of_nat (length (update_calls_from self n k)) <= Z.max k n
    /\ (forall self',
          simulate_while self n k = (self', None) ->
          currentState (stateMonitor self') <> HIV_DEATH ->
          k + Z.of_nat (length (update_calls_from self n k)) = Z.max k n))
    as Hloop.
  { apply (simulate_while_ind n (fun self k => 0 <= k -> _)).
    intros self0 k IH Hk0.
    rewrite simulate_while_once, update_calls_from_once.
    destruct (decide _) as [[Ha Hk]|Hstop].
    - apply get_if_alive_true in Ha.
      destruct (draw_new_state self0) as [self1 [e|s]] eqn:Hdraw.
      + simpl. split; [done|]. split; [lia|]. intros ? [=].
      + destruct (IH self1 s Ha Hk eq_refl ltac:(lia)) as (Hsteps & Hlen & Hfull).
        split; [|split].
        * rewrite fmap_cons, Hsteps. cbn [length fst].
          rewrite (seqZ_cons k) by lia. f_equal. f_equal; lia.
        * cbn [length]. lia.
        * intros self' Hrun Halive. specialize (Hfull self' Hrun Halive).
          cbn [length]. lia.
    - simpl. split; [done|]. split; [lia|].
      intros self' [= <-] Halive.
      apply get_if_alive_true in Halive.
      assert (~ k < n) by tauto. lia. }
  destruct (Hloop self 0 ltac:(lia)) as (Hsteps & Hlen & Hfull).
  split; [done|]. split; [lia|].
  intros self' Hrun Halive. specialize (Hfull self' Hrun Halive). lia.
Qed.

(** X3. The calls of a run are the first calls of every run of the same
    patient with a longer horizon. *)
Theorem update_calls_prefix self n n' :
  n <= n' -> update_calls self n `prefix_of` update_calls self n'.
Proof.
  intros Hn. unfold update_calls. generalize 0. revert self.
  apply (simulate_while_ind n). intros self k IH.
  rewrite (update_calls_from_once self n), (update_calls_from_once self n').
  destruct (decide (_ /\ k < n)) as [[Ha Hk]|_]; [|apply prefix_nil].
  rewrite decide_True by (split; [done | lia]).
  apply get_if_alive_true in Ha.
  destruct (draw_new_state self) as [self1 [e|s]] eqn:Hdraw; [done|].
  apply prefix_cons. by apply (IH self1 s).
Qed.

(** X4. A run with a longer horizon goes through the state in which the
    shorter run returned, and continues the loop from there with the
    counter at the shorter horizon. *)
Theorem simulate_continues self n n' self1 :
  0 <= n <= n' ->
  Patient_simulate self n = (self1, None) ->
  Patient_simulate self n' = simulate_while self1 n' n.
Proof.
  unfold Patient_simulate. intros [Hn0 Hn]. generalize 0 Hn0. clear Hn0. revert self.
  apply (simulate_while_ind n
           (fun self k => k <= n -> simulate_while self n k = _ ->
                          simulate_while self n' k = _)).
  intros self k IH Hk0 Hrun.
  rewrite simulate_while_once in Hrun.
  destruct (decide _) as [[Ha Hk]|Hstop].
  - rewrite (simulate_while_once self n'), decide_True by (split; [done | lia]).
    apply get_if_alive_true in Ha.
    destruct (draw_new_state self) as [self2 [e|s]] eqn:Hdraw; [done|].
    apply (IH self2 s Ha Hk eq_refl); [lia | done].
  - injection Hrun as <-.
    destruct (decide (currentState (stateMonitor self) = HIV_DEATH)) as [Hd|Ha].
    + by rewrite !simulate_while_dead.
    + apply get_if_alive_true in Ha.
      assert (k = n) as -> by (assert (~ k < n) by tauto; lia). done.
Qed.

Lemma update_calls_from_dead self n k :
  currentState (stateMonitor self) = HIV_DEATH -> update_calls_from self n k = [].
Proof.
  intros Hd. rewrite update_calls_from_once.
  apply get_if_alive_false in Hd.
  rewrite decide_False; [done | rewrite Hd; intuition congruence].
Qed.

(** X5. The state a run leaves is the one passed to its last [update] call,
    and when that state is the terminal one the survival time is the time
    step of that call plus 0.5; a run without a call leaves the monitor
    as it was.  This holds of the runs that an exception ends as well. *)
Theorem final_state_is_last_call self n :
  let m := stateMonitor (Patient_simulate self n).1 in
  (update_calls self n = [] -> m = stateMonitor self)
  /\ (forall t s,
        list.last (update_calls self n) = Some (t, s) ->
        currentState m = s
        /\ (s = HIV_DEATH -> survivalTime m = Some (inject_Z t + (1 # 2))%Q)).
Proof.
  unfold update_calls, Patient_simulate. generalize 0. revert self.
  apply (simulate_while_ind n). intros self k IH.
  rewrite simulate_while_once, update_calls_from_once.
  destruct (decide _) as [[Ha Hk]|_]; [|done].
  apply get_if_alive_true in Ha.
  pose proof (draw_new_state_stateMonitor self) as Hm.
  destruct (draw_new_state self) as [self1 [e|s]] eqn:Hdraw; simpl in Hm.
  { simpl. by rewrite Hm. }
  destruct (IH self1 s Ha Hk eq_refl) as [Hnone Hlast].
  split; [done|]. intros t s'.
  destruct (update_calls_from (update_patient k s self1) n (k + 1))
    as [|call rest] eqn:Hcalls.
  - intros [= <- <-]. rewrite (Hnone eq_refl). unfold update_patient; simpl.
    rewrite Hm, currentState_update, survivalTime_update by done.
    split; [done|]. intros ->. by rewrite decide_True.
  - rewrite last_cons_cons. apply Hlast.
Qed.

(** X6. The terminal state is passed to [update] at most once over a run, and
    only by the last call: no call follows the one that kills. *)
Theorem death_is_the_last_call self n i t :
  update_calls self n !! i = Some (t, HIV_DEATH) ->
  S i = length (update_calls self n).
Proof.
  unfold update_calls. revert i. generalize 0. revert self.
  apply (simulate_while_ind n
           (fun self k => forall i, update_calls_from self n k !! i = _ -> _)).
  intros self k IH i.
  rewrite update_calls_from_once.
  destruct (decide _) as [[Ha Hk]|_]; [|done].
  apply get_if_alive_true in Ha.
  pose proof (draw_new_state_stateMonitor self) as Hm.
  destruct (draw_new_state self) as [self1 [e|s]] eqn:Hdraw; simpl in Hm; [done|].
  destruct i as [|i]; simpl.
  - intros [= <- ->]. rewrite update_calls_from_dead; [done|].
    unfold update_patient; simpl. rewrite Hm. by apply currentState_update.
  - intros Hi. f_equal. by apply (IH self1 s).
Qed.

(** X7. A patient that is alive, simulated with a positive horizon on a
    matrix that has no row for the value of its state (neither counted
    from the front nor, for a negative value, from the back), raises
    [IndexError] before anything is drawn: the patient is unchanged. *)
Theorem simulate_without_row self n :
  let v := value (currentState (stateMonitor self)) in
  let rows := Z.of_nat (length (tranProbMatrix self)) in
  currentState (stateMonitor self) <> HIV_DEATH ->
  0 < n ->
  v < - rows \/ rows <= v ->
  Patient_simulate self n = (self, Some IndexError)
  /\ update_calls self n = [].
Proof.
  intros v rows Ha Hn Hrow.
  unfold Patient_simulate, update_calls.
  rewrite simulate_while_once, update_calls_from_once.
  apply get_if_alive_true in Ha.
  rewrite !decide_True by done.
  unfold draw_new_state, getitem. fold v rows.
  rewrite (decide_False (P := 0 <= _ < rows)); [done|].
  case_decide; lia.
Qed.

Lemma half_cycle_step (j i : Z) : j < i -> (half_cycle j + 1 <= half_cycle i)%Q.
Proof.
  intros Hji. unfold half_cycle, half, Qle, Qplus, inject_Z. simpl. lia.
Qed.

Lemma half_cycle_bounds (j n : Z) :
  0 <= j <= n - 1 -> (half <= half_cycle j <= inject_Z n - half)%Q.
Proof.
  intros Hj. unfold half_cycle, half, Qle, Qminus, Qplus, Qopp, inject_Z.
  simpl. lia.
Qed.

(** The invariant of the loop on the two recorded times, for a newly
    created patient. *)
Lemma simulate_recorded_times id M n :
  let m := stateMonitor (Patient_simulate (Patient_init id M) n).1 in
  (forall ta, timeToAIDS m = Some ta ->
     exists j, 0 <= j <= n - 1 /\ ta = half_cycle j)
  /\ (forall ts, survivalTime m = Some ts ->
        exists i, 0 <= i <= n - 1 /\ ts = half_cycle i
          /\ forall ta, timeToAIDS m = Some ta ->
               exists j, 0 <= j <= i /\ (AIDS <> HIV_DEATH -> j < i)
                         /\ ta = half_cycle j).
Proof.
  intros m.
  destruct (simulate_while_invariant n
    (fun k m =>
       0 <= k
       /\ (forall ta, timeToAIDS m = Some ta ->
             exists j, 0 <= j < k /\ j <= n - 1 /\ ta = half_cycle j)
       /\ (forall ts, survivalTime m = Some ts ->
             currentState m = HIV_DEATH
             /\ exists i, 0 <= i <= n - 1 /\ ts = half_cycle i
                  /\ forall ta, timeToAIDS m = Some ta ->
                       exists j, 0 <= j <= i /\ (AIDS <> HIV_DEATH -> j < i)
                                 /\ ta = half_cycle j)))
    with (self := Patient_init id M) (k := 0) as (k' & _ & Hta & Hts).
  - intros k m0 s (Hk0 & Hta & Hts) Ha Hlt. split; [lia|]. split.
    + intros ta. rewrite timeToAIDS_update.
      destruct (assigns_timeToAIDS s m0).
      * intros [= <-]. exists k. repeat split; lia || done.
      * intros (j & Hj & Hjn & ->)%Hta. exists j. repeat split; lia || done.
    + intros ts. rewrite survivalTime_update, currentState_update by done.
      case_decide as Hs.
      * intros [= <-]. split; [done|]. exists k. split; [lia|]. split; [done|].
        intros ta. rewrite timeToAIDS_update.
        unfold assigns_timeToAIDS. case_bool_decide as Hassign.
        -- intros [= <-]. exists k. split; [lia|]. split; [|done].
           intros Hne. destruct Hassign as (_ & _ & Hs'). congruence.
        -- intros (j & Hj & Hjn & ->)%Hta. exists j. repeat split; lia || done.
      * intros [Hd _]%Hts. by destruct Ha.
  - split; [lia|]. split; intros ?; simpl; done.
  - split.
    + intros ta (j & Hj & Hjn & ->)%Hta. exists j. split; [lia | done].
    + intros ts (_ & Hi)%Hts. exact Hi.
Qed.

(** X8. After a run on a newly created patient, a time to AIDS that is set is
    [j + 0.5] for a step [j] of the horizon; and when AIDS and death are
    two states, a survival time that is set as well lies at least one
    whole step later. *)
Theorem timeToAIDS_within_horizon id M n ta :
  let m := stateMonitor (Patient_simulate (Patient_init id M) n).1 in
  timeToAIDS m = Some ta ->
  (exists j, 0 <= j <= n - 1 /\ ta = half_cycle j)
  /\ (AIDS <> HIV_DEATH ->
      forall ts, survivalTime m = Some ts -> (ta + 1 <= ts)%Q).
Proof.
  intros m Hta. destruct (simulate_recorded_times id M n) as [Hbound Horder].
  split; [by apply Hbound|].
  intros Hne ts Hts.
  destruct (Horder ts Hts) as (i & _ & -> & Hbefore).
  destruct (Hbefore ta Hta) as (j & _ & Hji & ->).
  apply half_cycle_step. by apply Hji.
Qed.

End RunProperties.


(** ** Further properties of the cohort and of the aggregation *)

Lemma sum_from_bounds (a b : Q) (l : list Q) (acc : Q) :
  Forall (fun x => (a <= x <= b)%Q) l ->
  (acc + inject_Z (Z.of_nat (length l)) * a <= fold_left Qplus l acc
   /\ fold_left Qplus l acc <= acc + inject_Z (Z.of_nat (length l)) * b)%Q.
Proof.
  intros Hl. revert acc. induction Hl as [|x l [Hax Hxb] _ IH]; intros acc.
  - cbn [fold_left length]. change (inject_Z (Z.of_nat 0)) with 0%Q. split; lra.
  - cbn [fold_left length]. destruct (IH (acc + x)%Q) as [Hlo Hhi].
    rewrite Nat2Z.inj_succ, <- Z.add_1_r, inject_Z_plus.
    change (inject_Z 1) with 1%Q.
    split; lra.
Qed.

(** The mean of numbers between two bounds lies between them. *)
Lemma mean_bounds (a b : Q) (l : list Q) (mu : Q) :
  Forall (fun x => (a <= x <= b)%Q) l ->
  mean l = inr mu -> (a <= mu <= b)%Q.
Proof.
  intros Hl. unfold mean, sum. destruct l as [|x l]; [done|].
  intros [= <-].
  destruct (sum_from_bounds a b (x :: l) 0 Hl) as [Hlo Hhi].
  assert (0 < inject_Z (Z.of_nat (length (x :: l))))%Q as Hpos.
  { change 0%Q with (inject_Z 0). rewrite <- Zlt_Qlt. simpl. lia. }
  cbn [length fold_left] in *.
  split.
  - apply Qle_shift_div_l; [done|]. lra.
  - apply Qle_shift_div_r; [done|]. lra.
Qed.

(** A list without [None] sums as the list of its numbers. *)
Lemma mapM_id_is_Some (l : list (option Q)) :
  Forall is_Some l ->
  exists floats, mapM (M := option) (fun x : option Q => x) l = Some floats
                 /\ l = Some <$> floats.
Proof.
  induction 1 as [|x l [t ->] _ (floats & Hfloats & ->)].
  - by exists [].
  - exists (t :: floats). simpl. by rewrite Hfloats.
Qed.


Section AggregationProperties.
Context {HealthState : Type} `{!HealthStateEnum HealthState}.
Context {rng empirical : Type} `{!RandomVariantGenerators rng empirical}.
Implicit Types (self : CohortOutcomes) (patient : Patient HealthState rng).
Implicit Types (ps : list (Patient HealthState rng)) (c : Cohort HealthState rng).

Lemma simulate_patients_fixed_fields ps n :
  Patient_id <$> (simulate_patients ps n).1 = Patient_id <$> ps
  /\ tranProbMatrix <$> (simulate_patients ps n).1 = tranProbMatrix <$> ps.
Proof.
  induction ps as [|patient ps [IHid IHM]]; [done|]. simpl.
  pose proof (simulate_while_fixed_fields n patient 0) as [Hid HM].
  fold (Patient_simulate patient n) in Hid, HM.
  destruct (Patient_simulate patient n) as [patient' [e|]]; simpl in *.
  - split; f_equal; assumption.
  - destruct (simulate_patients ps n) as [ps' e]; simpl in *.
    split; f_equal; assumption.
Qed.

(** X9. [Cohort.simulate] changes neither the id of the cohort nor the number,
    the order, the ids or the matrices of its patients, whether it returns
    or raises. *)
Theorem cohort_simulate_keeps_patients c n :
  let c' := (Cohort_simulate c n).1 in
  Cohort_id c' = Cohort_id c
  /\ length (patients c') = length (patients c)
  /\ Patient_id <$> patients c' = Patient_id <$> patients c
  /\ tranProbMatrix <$> patients c' = tranProbMatrix <$> patients c.
Proof.
  intros c'. subst c'. unfold Cohort_simulate.
  pose proof (simulate_patients_fixed_fields (patients c) n) as [Hid HM].
  destruct (simulate_patients (patients c) n) as [ps' [e|]]; simpl in *.
  - split; [done|]. split; [|done].
    by rewrite <- (length_fmap Patient_id ps'), Hid, length_fmap.
  - destruct (extract_outcomes _ ps') as [outcomes e]; simpl.
    split; [done|]. split; [|done].
    by rewrite <- (length_fmap Patient_id ps'), Hid, length_fmap.
Qed.

(** X10. When a patient raises, [Cohort.simulate] raises the same exception:
    the patients before it have been simulated, the one that raised is
    left as the exception found it, the patients after it are untouched
    and nothing is recorded in the outcomes. *)
Theorem cohort_simulate_stops_at_first_failure c n before patient after e :
  patients c = before ++ patient :: after ->
  Forall (fun p => (Patient_simulate p n).2 = None) before ->
  (Patient_simulate patient n).2 = Some e ->
  Cohort_simulate c n
  = ({| Cohort_id := Cohort_id c;
        patients := ((fun p => (Patient_simulate p n).1) <$> before)
                      ++ (Patient_simulate patient n).1 :: after;
        cohortOutcomes := cohortOutcomes c |}, Some e).
Proof.
  intros Hps Hbefore Hraise. unfold Cohort_simulate. rewrite Hps.
  assert (simulate_patients (before ++ patient :: after) n
          = (((fun p => (Patient_simulate p n).1) <$> before)
               ++ (Patient_simulate patient n).1 :: after, Some e)) as ->; [|done].
  clear Hps. induction Hbefore as [|p before Hok _ IH]; simpl.
  - destruct (Patient_simulate patient n) as [patient' e']; simpl in *.
    by subst e'.
  - destruct (Patient_simulate p n) as [p' e']; simpl in *. subst e'.
    by rewrite IH.
Qed.

Lemma simulate_patients_unchanged ps n :
  Forall (fun p => Patient_simulate p n = (p, None)) ps ->
  simulate_patients ps n = (ps, None).
Proof.
  induction 1 as [|p ps Hp _ IH]; simpl; [done|].
  by rewrite Hp, IH.
Qed.

Lemma simulate_patients_returned ps n ps' :
  simulate_patients ps n = (ps', None) ->
  ps' = (fun p => (Patient_simulate p n).1) <$> ps
  /\ Forall (fun p => (Patient_simulate p n).2 = None) ps.
Proof.
  revert ps'. induction ps as [|p ps IH]; intros ps'; simpl.
  - by intros [= <-].
  - destruct (Patient_simulate p n) as [p' [e|]] eqn:Hp; [done|].
    destruct (simulate_patients ps n) as [rest e]; simpl.
    intros [= <- ->]. destruct (IH rest eq_refl) as [-> Hok].
    split; [done|]. constructor; [by rewrite Hp | done].
Qed.

(** The aggregation of patients whose monitors [update] calls produced,
    into outcomes that are new, either completes, with both lists
    non-empty and both means and the survival curve set, or leaves by
    [ZeroDivisionError] with one of the lists empty. *)
Lemma extract_outcomes_cases ps :
  Forall (fun patient => reachable (stateMonitor patient)) ps ->
  let result := extract_outcomes CohortOutcomes_init ps in
  (survivalTimes result.1 <> [] /\ timesToAIDS result.1 <> []
   /\ result.2 = None
   /\ is_Some (meanSurvivalTime result.1) /\ is_Some (meanTimeToAIDS result.1)
   /\ is_Some (nLivingPatients result.1))
  \/ ((survivalTimes result.1 = [] \/ timesToAIDS result.1 = [])
      /\ result.2 = Some ZeroDivisionError
      /\ nLivingPatients result.1 = None).
Proof.
  intros Hreach result.
  destruct (extract_outcomes_lists CohortOutcomes_init ps) as [Hs Ha].
  fold result in Hs, Ha.
  set (recorded := fold_left record_patient ps CohortOutcomes_init) in *.
  destruct (decide (length (survivalTimes recorded) = 0%nat)) as [Hs0|Hs0];
    [|destruct (decide (length (timesToAIDS recorded) = 0%nat)) as [Ha0|Ha0]].
  - right. rewrite Hs. apply nil_length_inv in Hs0.
    split; [by left|]. by apply extract_outcomes_empty_raises; left.
  - right. rewrite Ha. apply nil_length_inv in Ha0.
    split; [by right|]. by apply extract_outcomes_empty_raises; right.
  - left. rewrite Hs, Ha.
    split; [intros Hnil; by rewrite Hnil in Hs0|].
    split; [intros Hnil; by rewrite Hnil in Ha0|].
    subst result. unfold extract_outcomes. fold recorded.
    destruct (survivalTimes recorded) as [|ts times] eqn:Htimes; [done|].
    simpl. rewrite Htimes.
    destruct (mapM_id_is_Some (timesToAIDS recorded)) as (floats & Hfloats & Hsome).
    { unfold recorded. rewrite timesToAIDS_recorded. simpl.
      apply Forall_fmap, list.Forall_forall. intros patient [Hflag Hin]%list_elem_of_filter.
      apply reachable_flag_time; [|done].
      by apply (proj1 (list.Forall_forall _ _) Hreach). }
    unfold mean_of_optional. rewrite Hfloats.
    destruct floats as [|ta floats]; [by rewrite Hsome in Ha0|].
    simpl. by repeat split.
Qed.

(** The patients of a new cohort after they were simulated without an
    exception carry monitors that [update] calls produced. *)
Lemma simulated_patients_reachable id N M n :
  Forall (fun patient => reachable (stateMonitor patient))
    ((fun i => (Patient_simulate (Patient_init (id * N + i) M) n).1) <$> range N).
Proof.
  apply Forall_fmap, list.Forall_forall. intros i _. simpl.
  apply simulate_while_reachable. apply reachable_init.
Qed.

(** X11. [Cohort.simulate] on a new cohort none of whose patients raises has
    two outcomes only: it returns, with both lists of times non-empty,
    both means and the survival curve set; or it raises
    [ZeroDivisionError], one of the lists being empty, and leaves no
    survival curve.  In particular the means never raise [TypeError]. *)
Theorem cohort_simulate_returns_or_divides_by_zero id N M n :
  let run := Cohort_simulate (Cohort_init id N M) n in
  let outcomes := cohortOutcomes run.1 in
  Forall (fun i => (Patient_simulate (Patient_init (id * N + i) M) n).2 = None)
    (range N) ->
  (survivalTimes outcomes <> [] /\ timesToAIDS outcomes <> []
   /\ run.2 = None
   /\ is_Some (meanSurvivalTime outcomes) /\ is_Some (meanTimeToAIDS outcomes)
   /\ is_Some (nLivingPatients outcomes))
  \/ ((survivalTimes outcomes = [] \/ timesToAIDS outcomes = [])
      /\ run.2 = Some ZeroDivisionError
      /\ nLivingPatients outcomes = None).
Proof.
  intros run outcomes Hok. subst outcomes run. unfold Cohort_simulate.
  rewrite patients_Cohort_init, simulate_patients_all by (by apply Forall_fmap).
  rewrite <- list_fmap_compose.
  set (ps := _ <$> range N).
  assert (Forall (fun patient => reachable (stateMonitor patient)) ps) as Hreach
    by apply simulated_patients_reachable.
  pose proof (extract_outcomes_cases ps Hreach) as Hcases.
  destruct (extract_outcomes _ ps) as [outcomes e].
  simpl in Hcases |- *. exact Hcases.
Qed.


(** X13. [Cohort.simulate] on a cohort whose patients are all dead leaves the
    patients as they are and appends their times to the outcome lists
    once more: calling it again on a simulated cohort does not replace
    the recorded outcomes, it adds to them. *)
Theorem cohort_simulate_again_records_again c n :
  Forall (fun patient => currentState (stateMonitor patient) = HIV_DEATH)
    (patients c) ->
  let again := (Cohort_simulate c n).1 in
  patients again = patients c
  /\ survivalTimes (cohortOutcomes again)
     = survivalTimes (cohortOutcomes c)
       ++ omap (fun patient => survivalTime (stateMonitor patient)) (patients c)
  /\ timesToAIDS (cohortOutcomes again)
     = timesToAIDS (cohortOutcomes c)
       ++ ((fun patient => timeToAIDS (stateMonitor patient))
             <$> filter (fun patient => ifDevelopedAIDS (stateMonitor patient) = true)
                   (patients c)).
Proof.
  intros Hdead again. subst again. unfold Cohort_simulate.
  rewrite simulate_patients_unchanged.
  - pose proof (extract_outcomes_lists (cohortOutcomes c) (patients c)) as [Hs Ha].
    destruct (extract_outcomes _ _) as [outcomes e]; simpl in *.
    by rewrite Hs, Ha, survivalTimes_recorded, timesToAIDS_recorded.
  - eapply list.Forall_impl; [exact Hdead|]. intros patient Hd.
    by apply simulate_while_dead.
Qed.

Lemma record_patient_nothing self ps :
  Forall (fun patient => survivalTime (stateMonitor patient) = None
                         /\ ifDevelopedAIDS (stateMonitor patient) = false) ps ->
  fold_left record_patient ps self = self.
Proof.
  induction 1 as [|patient ps [Hs Hf] _ IH]; simpl; [done|].
  unfold record_patient at 2. rewrite Hs, Hf. by destruct self.
Qed.

(** X14. A new cohort without patients (a population size that is not
    positive), or simulated with a horizon that is not positive, records
    nothing: [Cohort.simulate] leaves the cohort exactly as it was built
    and raises [ZeroDivisionError]. *)
Theorem cohort_simulate_nothing_to_simulate id N M n :
  N <= 0 \/ n <= 0 ->
  Cohort_simulate (Cohort_init id N M) n
  = (Cohort_init id N M, Some ZeroDivisionError).
Proof.
  intros Hempty. unfold Cohort_simulate.
  rewrite simulate_patients_unchanged.
  - unfold extract_outcomes. change (cohortOutcomes (Cohort_init id N M))
      with CohortOutcomes_init.
    rewrite record_patient_nothing; [done|].
    rewrite patients_Cohort_init. by apply Forall_fmap, Forall_true.
  - rewrite patients_Cohort_init. apply Forall_fmap, list.Forall_forall.
    intros i Hi%elem_of_seqZ. simpl.
    unfold Patient_simulate. rewrite simulate_while_once.
    rewrite decide_False; [done | lia].
Qed.

(** X15. When [Cohort.simulate] on a new cohort sets the mean survival time,
    the mean lies between 0.5 and the horizon minus 0.5. *)
Theorem mean_survival_within_horizon id N M n mu :
  meanSurvivalTime (cohortOutcomes (Cohort_simulate (Cohort_init id N M) n).1)
  = Some mu ->
  (half <= mu <= inject_Z n - half)%Q.
Proof.
  unfold Cohort_simulate. rewrite patients_Cohort_init.
  destruct (simulate_patients _ n) as [ps' [e|]] eqn:Hsim; [done|].
  apply simulate_patients_returned in Hsim as [-> _].
  rewrite <- list_fmap_compose.
  set (ps := _ <$> range N).
  change (cohortOutcomes (Cohort_init id N M)) with CohortOutcomes_init.
  destruct (extract_outcomes CohortOutcomes_init ps) as [outcomes e] eqn:Hextract.
  simpl. intros Hmean.
  assert (mean (survivalTimes (fold_left record_patient ps CohortOutcomes_init))
          = inr mu) as Hmu.
  { unfold extract_outcomes in Hextract.
    destruct (record_patients_other_fields ps CohortOutcomes_init) as (Hnone & _ & _).
    destruct (mean _) as [e1|mean1].
    - injection Hextract as <- <-. by rewrite Hnone in Hmean.
    - destruct (mean_of_optional _) as [e2|mean2];
        injection Hextract as <- <-; simpl in Hmean; congruence. }
  apply mean_bounds with (a := half) (b := (inject_Z n - half)%Q) in Hmu; [done|].
  rewrite survivalTimes_recorded. simpl. subst ps.
  rewrite omap_fmap_compose. apply list.Forall_forall.
  intros ts (i & _ & Hts)%list_elem_of_omap. simpl in Hts.
  destruct (simulate_recorded_times (id * N + i) M n) as [_ Hbound].
  destruct (Hbound ts Hts) as (j & Hj & -> & _).
  by apply half_cycle_bounds.
Qed.

End AggregationProperties.


(** ** The further properties on concrete patients and cohorts *)

Section FurtherExamples.
Import HIV.

(** A monitor after the call that kills. *)
Lemma survivalTime_set_iff_dead_witness :
  CD4_200to500 <> HIV_DEATH
  /\ reachable (update 3 st_HIV_DEATH fresh)
  /\ (survivalTime (update 3 st_HIV_DEATH fresh) <> None
      <-> currentState (update 3 st_HIV_DEATH fresh) = HIV_DEATH).
Proof.
  assert (CD4_200to500 <> HIV_DEATH) as Hstart by (simpl; discriminate).
  assert (reachable (update 3 st_HIV_DEATH fresh)) as Hreach
    by (apply reachable_update, reachable_init).
  exact (conj Hstart (conj Hreach (survivalTime_set_iff_dead _ Hstart Hreach))).
Defined.

(** Seed 0 on the alternating chain survives the three steps. *)
Lemma update_calls_time_steps_witness :
  let patient := Patient_init 0 relapsing in
  let survivor := (Patient_simulate patient 3).1 in
  Patient_simulate patient 3 = (survivor, None)
  /\ currentState (stateMonitor survivor) <> HIV_DEATH
  /\ (update_calls patient 3).*1 = [0; 1; 2]
  /\ Z.of_nat (length (update_calls patient 3)) = Z.max 0 3.
Proof.
  intros patient survivor.
  assert (Patient_simulate patient 3 = (survivor, None)) as Hrun
    by (vm_compute; reflexivity).
  assert (currentState (stateMonitor survivor) <> HIV_DEATH) as Halive
    by (vm_compute; discriminate).
  destruct (update_calls_time_steps patient 3) as (_ & _ & Hfull).
  refine (conj Hrun (conj Halive (conj _ (Hfull survivor Hrun Halive)))).
  vm_compute. reflexivity.
Defined.

(** Seed 7 on the progressive chain, horizons 2 and 10. *)
Lemma update_calls_prefix_witness :
  2 <= 10
  /\ update_calls (Patient_init 7 progressive) 2
     `prefix_of` update_calls (Patient_init 7 progressive) 10.
Proof.
  assert (2 <= 10) as Hle by lia.
  exact (conj Hle (update_calls_prefix (Patient_init 7 progressive) 2 10 Hle)).
Defined.

Lemma simulate_continues_witness :
  let patient := Patient_init 7 progressive in
  let midway := (Patient_simulate patient 2).1 in
  0 <= 2 <= 10
  /\ Patient_simulate patient 2 = (midway, None)
  /\ Patient_simulate patient 10 = simulate_while midway 10 2.
Proof.
  intros patient midway.
  assert (0 <= 2 <= 10) as Hle by lia.
  assert (Patient_simulate patient 2 = (midway, None)) as Hrun
    by (vm_compute; reflexivity).
  exact (conj Hle (conj Hrun (simulate_continues patient 2 10 midway Hle Hrun))).
Defined.

(** The last call of that run is the one that kills, at step 2. *)
Lemma final_state_is_last_call_witness :
  let patient := Patient_init 7 progressive in
  let m := stateMonitor (Patient_simulate patient 10).1 in
  list.last (update_calls patient 10) = Some (2, st_HIV_DEATH)
  /\ currentState m = st_HIV_DEATH
  /\ survivalTime m = Some (5 # 2).
Proof.
  intros patient m.
  assert (list.last (update_calls patient 10) = Some (2, st_HIV_DEATH)) as Hlast
    by (vm_compute; reflexivity).
  destruct (final_state_is_last_call patient 10) as [_ Hfinal].
  destruct (Hfinal 2 st_HIV_DEATH Hlast) as [Hstate Htime].
  exact (conj Hlast (conj Hstate (Htime eq_refl))).
Defined.

Lemma death_is_the_last_call_witness :
  let patient := Patient_init 7 progressive in
  update_calls patient 10 !! 2%nat = Some (2, HIV_DEATH)
  /\ 3%nat = length (update_calls patient 10).
Proof.
  intros patient.
  assert (update_calls patient 10 !! 2%nat = Some (2, HIV_DEATH)) as Hcall
    by (vm_compute; reflexivity).
  exact (conj Hcall (death_is_the_last_call patient 10 2 2 Hcall)).
Defined.

(** A patient given a matrix of two rows only, in a state of value 2. *)
Lemma simulate_without_row_witness :
  let patient :=
    update_patient 0 st_AIDS (Patient_init 0 [[0; 0; 1; 0]; [0; 0; 0; 1]]%Q) in
  currentState (stateMonitor patient) <> HIV_DEATH
  /\ 0 < 5
  /\ Patient_simulate patient 5 = (patient, Some IndexError).
Proof.
  intros patient.
  assert (currentState (stateMonitor patient) <> HIV_DEATH) as Halive
    by (vm_compute; discriminate).
  assert (0 < 5) as Hn by lia.
  destruct (simulate_without_row patient 5 Halive Hn) as [Hraise _].
  - right. vm_compute. discriminate.
  - exact (conj Halive (conj Hn Hraise)).
Defined.

Lemma timeToAIDS_within_horizon_witness :
  let m := stateMonitor (Patient_simulate (Patient_init 7 progressive) 10).1 in
  timeToAIDS m = Some (3 # 2)
  /\ AIDS <> HIV_DEATH
  /\ survivalTime m = Some (5 # 2)
  /\ ((3 # 2) + 1 <= 5 # 2)%Q.
Proof.
  intros m.
  assert (timeToAIDS m = Some (3 # 2)) as Hta by (vm_compute; reflexivity).
  assert (AIDS <> HIV_DEATH) as Hne by (simpl; discriminate).
  assert (survivalTime m = Some (5 # 2)) as Hts by (vm_compute; reflexivity).
  destruct (timeToAIDS_within_horizon 7 progressive 10 (3 # 2) Hta) as [_ Horder].
  exact (conj Hta (conj Hne (conj Hts (Horder Hne _ Hts)))).
Defined.

(** Cohort 2 of three patients on the faulty chain: the first dies at
    1.5, the second develops AIDS and then raises, the third is not
    simulated. *)
Lemma cohort_simulate_stops_at_first_failure_witness :
  let c := Cohort_init 2 3 faulty in
  let first := Patient_init 6 faulty in
  let second := Patient_init 7 faulty in
  let third := Patient_init 8 faulty in
  patients c = [first] ++ second :: [third]
  /\ Forall (fun p => (Patient_simulate p 10).2 = None) [first]
  /\ (Patient_simulate second 10).2 = Some ValueError
  /\ (Cohort_simulate c 10).2 = Some ValueError
  /\ patients (Cohort_simulate c 10).1 !! 2%nat = Some third
  /\ cohortOutcomes (Cohort_simulate c 10).1 = CohortOutcomes_init.
Proof.
  intros c first second third.
  assert (patients c = [first] ++ second :: [third]) as Hps
    by (vm_compute; reflexivity).
  assert (Forall (fun p => (Patient_simulate p 10).2 = None) [first]) as Hok
    by (repeat constructor).
  assert ((Patient_simulate second 10).2 = Some ValueError) as Hraise
    by (vm_compute; reflexivity).
  pose proof (cohort_simulate_stops_at_first_failure
                c 10 [first] second [third] ValueError Hps Hok Hraise) as Hrun.
  refine (conj Hps (conj Hok (conj Hraise _))).
  rewrite Hrun. simpl. refine (conj eq_refl (conj eq_refl eq_refl)).
Defined.

Lemma cohort_simulate_returns_or_divides_by_zero_witness :
  let run := Cohort_simulate (Cohort_init 1 3 progressive) 10 in
  Forall (fun i => (Patient_simulate (Patient_init (1 * 3 + i) progressive) 10).2 = None)
    (range 3)
  /\ run.2 = None
  /\ ((survivalTimes (cohortOutcomes run.1) <> []
       /\ timesToAIDS (cohortOutcomes run.1) <> []
       /\ run.2 = None
       /\ is_Some (meanSurvivalTime (cohortOutcomes run.1))
       /\ is_Some (meanTimeToAIDS (cohortOutcomes run.1))
       /\ is_Some (nLivingPatients (cohortOutcomes run.1)))
      \/ ((survivalTimes (cohortOutcomes run.1) = []
           \/ timesToAIDS (cohortOutcomes run.1) = [])
          /\ run.2 = Some ZeroDivisionError
          /\ nLivingPatients (cohortOutcomes run.1) = None)).
Proof.
  intros run.
  assert (Forall (fun i => (Patient_simulate (Patient_init (1 * 3 + i) progressive) 10).2
                           = None) (range 3)) as Hok by (repeat constructor).
  assert (run.2 = None) as Hdone by (vm_compute; reflexivity).
  exact (conj Hok (conj Hdone
           (cohort_simulate_returns_or_divides_by_zero 1 3 progressive 10 Hok))).
Defined.


(** Cohort 1 of three patients on the progressive chain, simulated
    twice: the three survival times are recorded twice. *)
Lemma cohort_simulate_again_records_again_witness :
  let c := (Cohort_simulate (Cohort_init 1 3 progressive) 10).1 in
  Forall (fun patient => currentState (stateMonitor patient) = HIV_DEATH) (patients c)
  /\ survivalTimes (cohortOutcomes c) = [5 # 2; 5 # 2; 5 # 2]%Q
  /\ survivalTimes (cohortOutcomes (Cohort_simulate c 10).1)
     = [5 # 2; 5 # 2; 5 # 2; 5 # 2; 5 # 2; 5 # 2]%Q.
Proof.
  intros c.
  assert (Forall (fun patient => currentState (stateMonitor patient) = HIV_DEATH)
            (patients c)) as Hdead by (repeat constructor).
  destruct (cohort_simulate_again_records_again c 10 Hdead) as (_ & Htimes & _).
  refine (conj Hdead (conj _ _)); [vm_compute; reflexivity|].
  rewrite Htimes. vm_compute. reflexivity.
Defined.

Lemma cohort_simulate_nothing_to_simulate_witness :
  (0 <= 0 \/ 10 <= 0)
  /\ Cohort_simulate (Cohort_init 1 0 progressive) 10
     = (Cohort_init 1 0 progressive, Some ZeroDivisionError).
Proof.
  assert (0 <= 0 \/ 10 <= 0) as Hempty by (left; lia).
  exact (conj Hempty (cohort_simulate_nothing_to_simulate 1 0 progressive 10 Hempty)).
Defined.

Lemma mean_survival_within_horizon_witness :
  meanSurvivalTime (cohortOutcomes (Cohort_simulate (Cohort_init 2 2 mixed) 10).1)
  = Some (48 # 8)
  /\ (half <= 48 # 8 <= inject_Z 10 - half)%Q.
Proof.
  assert (meanSurvivalTime
            (cohortOutcomes (Cohort_simulate (Cohort_init 2 2 mixed) 10).1)
          = Some (48 # 8)) as Hmean by (vm_compute; reflexivity).
  exact (conj Hmean (mean_survival_within_horizon 2 2 mixed 10 _ Hmean)).
Defined.

End FurtherExamples.
